(** * nucypher-monitor: the dashboard's caching bridge and its widgets

    A shallow embedding of [monitor/components.py] and of the fetch,
    cache-read and endpoint code of [monitor/dashboard.py], followed by
    the properties of the specification that are about them. *)

From Stdlib Require Import ZArith List String Ascii Bool Arith Lia Floats DecimalString.
Import ListNotations.
Local Open Scope string_scope.
Set Warnings "-register-all,-inexact-float".

(** ** Python values *)

(** The values that travel through the dashboard: what [json.loads] and
    [response.json()] produce, plus the one [constant_sorrow] object the
    components compare against by identity. *)
Inductive pyval : Type :=
| VNone
| VBool (b : bool)
| VInt (z : Z)
| VFloat (f : float)
| VStr (s : string)
| VList (l : list pyval)
| VDict (d : list (string * pyval))
| UNKNOWN_FLEET_STATE.

Inductive exn : Type :=
| KeyError (key : string)
| TypeError
| OverflowError
| ParserError
| RequestException (what : string)
| JSONDecodeError
| ExternalError (what : string).

(** A call either returns or raises. *)
Inductive result (A : Type) : Type :=
| Ok (a : A)
| Raise (e : exn).
Arguments Ok {A} a.
Arguments Raise {A} e.

Definition bind {A B} (c : result A) (k : A -> result B) : result B :=
  match c with
  | Ok a => k a
  | Raise e => Raise e
  end.

Notation "'let*' x ':=' c 'in' k" := (bind c (fun x => k))
  (at level 10, x name, c at level 100, k at level 200).
Notation "'let*' ' p ':=' c 'in' k" := (bind c (fun x => match x with p => k end))
  (at level 10, p pattern, c at level 100, k at level 200).

(** Behaviour of the interpreter and of [constant_sorrow] that the
    embedding leaves open. *)
Class Builtins := {
  (** [str(v)] for the values whose text is not fixed below (floats,
      lists, dicts, constants). *)
  py_repr : pyval -> string;
  (** [bool(UNKNOWN_FLEET_STATE)]. *)
  constant_truthy : bool
}.

(** Dictionaries keep insertion order: an association list whose keys are
    pairwise distinct. *)
Definition keys {V} (d : list (string * V)) : list string := map fst d.

Definition well_formed {V} (d : list (string * V)) : Prop := NoDup (keys d).

Fixpoint get {V} (key : string) (d : list (string * V)) : option V :=
  match d with
  | [] => None
  | (k, v) :: d' => if String.eqb key k then Some v else get key d'
  end.

(** [d[key]] on a dict. *)
Definition getitem {V} (d : list (string * V)) (key : string) : result V :=
  match get key d with
  | Some v => Ok v
  | None => Raise (KeyError key)
  end.

(** [v[key]] with a string key: only dicts accept it. *)
Definition subscript (v : pyval) (key : string) : result pyval :=
  match v with
  | VDict d => getitem d key
  | _ => Raise TypeError
  end.

(** [v[:n]]: strings and lists can be sliced. *)
Definition slice_to (n : nat) (v : pyval) : result pyval :=
  match v with
  | VStr s => Ok (VStr (substring 0 n s))
  | VList l => Ok (VList (firstn n l))
  | _ => Raise TypeError
  end.

Definition str_of_nat (n : nat) : string := NilZero.string_of_uint (Nat.to_uint n).
Definition str_of_int (z : Z) : string := NilZero.string_of_int (Z.to_int z).

Section builtins.
Context `{Builtins}.

(** Truth value of [if v:]. *)
Definition truthy (v : pyval) : bool :=
  match v with
  | VNone => false
  | VBool b => b
  | VInt z => negb (Z.eqb z 0)
  | VFloat f => negb (PrimFloat.eqb f 0%float)
  | VStr s => negb (String.eqb s "")
  | VList l => match l with [] => false | _ => true end
  | VDict d => match d with [] => false | _ => true end
  | UNKNOWN_FLEET_STATE => constant_truthy
  end.

(** [str(v)], as an f-string interpolates it. *)
Definition py_str (v : pyval) : string :=
  match v with
  | VNone => "None"
  | VBool true => "True"
  | VBool false => "False"
  | VInt z => str_of_int z
  | VStr s => s
  | _ => py_repr v
  end.
End builtins.

(** [v is not UNKNOWN_FLEET_STATE]. *)
Definition is_not_unknown_fleet_state (v : pyval) : bool :=
  match v with
  | UNKNOWN_FLEET_STATE => false
  | _ => true
  end.

(** [for idx, x in enumerate(xs): ...] over a loop state, stopping at the
    first exception. *)
Fixpoint for_enumerate {A St} (body : nat -> A -> St -> result St)
         (idx : nat) (xs : list A) (s : St) : result St :=
  match xs with
  | [] => Ok s
  | x :: xs' =>
      match body idx x s with
      | Ok s' => for_enumerate body (S idx) xs' s'
      | Raise e => Raise e
      end
  end.

Definition for_in {A St} (body : A -> St -> result St) (xs : list A) (s : St) : result St :=
  for_enumerate (fun _ => body) 0 xs s.

(** ** Dash components *)

(** A component tree. [Elem tag children props] is [tag(children, **props)];
    a child is another component, a plain value ([Raw VNone] when no
    children are given) or a Python list of children. *)
Inductive html : Type :=
| Raw (v : pyval)
| Seq (l : list html)
| Elem (tag : string) (children : html) (props : list (string * pyval)).

(** Dash's [Component.__len__] counts the items below a component, and
    Python takes [len(c) > 0] for [if c:]: a component with no children
    or with an empty list of children is falsy. *)
Definition component_truthy (c : html) : bool :=
  match c with
  | Elem _ (Raw VNone) _ => false
  | Elem _ (Raw (VList [])) _ => false
  | Elem _ (Seq []) _ => false
  | _ => true
  end.

Module components.
Section components.
Context `{Builtins}.

(** What [maya] does with a timestamp. *)
Class Maya := {
  MayaDT : Type;
  (** [MayaDT.from_rfc3339(v)]; raises [ParserError] on text it cannot parse. *)
  from_rfc3339 : pyval -> result MayaDT;
  (** [dt.slang_time()], at the moment of the call. *)
  slang_time : MayaDT -> string
}.
Context `{Maya}.

Definition NODE_TABLE_COLUMNS : list string :=
  ["Status"; "Checksum"; "Nickname"; "Launched"; "Last Seen"; "Fleet State"].

Definition state_detail (state : pyval) (current_state : bool) : result html :=
  let* symbol := subscript state "symbol" in
  let* border := subscript state "color_hex" in
  let* nickname := subscript state "nickname" in
  let* updated := subscript state "updated" in
  let children :=
    [Elem "Div" (Seq [Elem "Div" (Raw symbol) [("className", VStr "single-symbol")]])
          [("className", VStr "nucypher-nickname-icon");
           ("style", VDict [("border-color", border)])];
     Elem "Span" (Raw nickname) [("title", updated)]] in
  let children :=
    if current_state
    then (children ++ [Elem "Span" (Raw (VStr "(*Current)")) []])%list
    else children in
  let* background := subscript state "color_hex" in
  Ok (Elem "Div" (Seq children)
           [("className", VStr (if current_state then "state state-current" else "state"));
            ("style", VDict [("background-color", background)])]).

Definition _states_table (states : list pyval) : result html :=
  let* row :=
    for_enumerate
      (fun idx state_dict row =>
         let current_state := Nat.eqb idx 0 in
         let* detail := state_detail state_dict current_state in
         Ok (row ++ [Elem "Td" detail []])%list)
      0 states [] in
  Ok (Elem "Table" (Seq [Elem "Tr" (Seq row) [("id", VStr "state-table")]]) []).

Definition previous_states (states : list pyval) : result html :=
  let* table := _states_table states in
  Ok (Elem "Div"
           (Seq [Elem "H4" (Raw (VStr "Previous States")) [];
                 Elem "Div" (Seq [table]) []])
           [("className", VStr "row")]).

Definition generate_node_status_icon (status : pyval) : result html :=
  let* status_message := subscript status "status" in
  let* color := subscript status "color" in
  let status_cell :=
    Elem "Indicator" (Raw VNone)
         [("id", VStr "Status"); ("color", color); ("value", VBool true);
          ("label", status_message); ("labelPosition", VStr "right");
          ("size", VInt 25)] in
  Ok (Elem "Td" status_cell []).

Definition generate_node_table_components (node_info : pyval)
  : result (list (string * html)) :=
  let* nickname := subscript node_info "nickname" in
  let* rest_url := subscript node_info "rest_url" in
  let identity :=
    Elem "Td"
         (Elem "Div"
               (Seq [Elem "A" (Raw nickname)
                          [("href", VStr ("https://" ++ py_str rest_url ++ "/status"));
                           ("target", VStr "_blank")]])
               [])
         [] in
  (* Fleet State *)
  let fleet_state_div := VList [] in
  let* fleet_state_icon := subscript node_info "fleet_state_icon" in
  let* fleet_state_div :=
    if is_not_unknown_fleet_state fleet_state_icon
    then subscript node_info "fleet_state_icon"
    else Ok fleet_state_div in
  let fleet_state := Elem "Td" (Seq [Elem "Div" (Raw fleet_state_div) []]) [] in
  let* staker_address := subscript node_info "staker_address" in
  let* url_address := subscript node_info "staker_address" in
  let etherscan_url := "https://goerli.etherscan.io/address/" ++ py_str url_address in
  let* slang_last_seen :=
    match (let* last_seen := subscript node_info "last_seen" in
           let* dt := from_rfc3339 last_seen in
           Ok (VStr (slang_time dt))) with
    | Raise ParserError => subscript node_info "last_seen"
    | r => r
    end in
  let* node_status := subscript node_info "status" in
  let* status := generate_node_status_icon node_status in
  let* prefix := slice_to 10 staker_address in
  let checksum :=
    Elem "Td"
         (Elem "A" (Raw (VStr (py_str prefix ++ "...")))
               [("href", VStr etherscan_url); ("target", VStr "_blank")])
         [] in
  let* timestamp := subscript node_info "timestamp" in
  Ok [("Status", status);
      ("Checksum", checksum);
      ("Nickname", identity);
      ("Launched", Elem "Td" (Raw timestamp) []);
      ("Last Seen", Elem "Td" (Seq [Raw slang_last_seen]) []);
      ("Fleet State", fleet_state)].

(** The style of a row: the teacher's row gets the highlight colours. *)
Definition row_style (index : nat) (teacher_index : option nat) : list (string * pyval) :=
  let style_dict := [("overflowY", VStr "scroll")] in
  match teacher_index with
  | Some t =>
      if Nat.eqb index t
      then (style_dict ++ [("backgroundColor", VStr "#1E65F3"); ("color", VStr "white")])%list
      else style_dict
  | None => style_dict
  end.

Definition nodes_table (nodes : list pyval) (teacher_index : option nat) : result html :=
  let* rows :=
    for_enumerate
      (fun index node_info rows =>
         let* components := generate_node_table_components node_info in
         let* row :=
           for_in
             (fun col row =>
                let* cell := getitem components col in
                Ok (if component_truthy cell then (row ++ [cell])%list else row))
             NODE_TABLE_COLUMNS [] in
         let style_dict := row_style index teacher_index in
         Ok (rows ++ [Elem "Tr" (Seq row)
                           [("style", VDict style_dict); ("className", VStr "node-row")]])%list)
      0 nodes [] in
  Ok (Elem "Table"
           (Seq ([Elem "Tr" (Seq (map (fun col => Elem "Th" (Raw (VStr col)) [])
                                      NODE_TABLE_COLUMNS))
                       [("className", VStr "table-header")]]
                 ++ rows)%list)
           [("id", VStr "node-table")]).

(** The loop of [known_nodes]: the truthy entries, and the position the
    teacher's entry takes among them. *)
Definition collect_nodes (nodes_dict : list (string * pyval))
           (teacher_checksum : option string) : result (list pyval * option nat) :=
  for_in
    (fun checksum '(nodes, teacher_index) =>
       let* node_data := getitem nodes_dict checksum in
       if truthy node_data
       then
         let teacher_index :=
           match teacher_checksum with
           | Some t => if String.eqb checksum t then Some (List.length nodes) else teacher_index
           | None => teacher_index
           end in
         Ok ((nodes ++ [node_data])%list, teacher_index)
       else Ok (nodes, teacher_index))
    (keys nodes_dict) ([], None).

Definition known_nodes (nodes_dict : list (string * pyval))
           (teacher_checksum : option string) : result html :=
  let* '(nodes, teacher_index) := collect_nodes nodes_dict teacher_checksum in
  let* table := nodes_table nodes teacher_index in
  Ok (Elem "Div"
           (Seq [Elem "H4" (Raw (VStr "Network Nodes")) [];
                 Elem "Div"
                      (Seq [Elem "Div" (Raw (VStr "* Current Teacher"))
                                 [("style", VDict [("backgroundColor", VStr "#1E65F3");
                                                   ("color", VStr "white")]);
                                  ("className", VStr "two columns")]])
                      [];
                 Elem "Br" (Raw VNone) [];
                 Elem "H6" (Raw (VStr ("Known Nodes: " ++ str_of_nat (List.length nodes_dict)))) [];
                 Elem "Div" (Seq [table]) []])
           []).
End components.
End components.

(** ** Numbers *)

(** Python's two number types as the supply endpoint mixes them: the
    economics are integers (NuNits), the allocation fractions binary64
    floats. *)
Inductive num : Type :=
| Int (z : Z)
| Float (f : float).

(** [float(z)]: the nearest binary64, ties to even; an integer that rounds
    past the largest finite float raises. *)
Definition float_of_int (z : Z) : result float :=
  let f := SF2Prim (binary_normalize prec emax z 0 false) in
  if is_infinity f then Raise OverflowError else Ok f.

Definition to_float (x : num) : result float :=
  match x with
  | Int z => float_of_int z
  | Float f => Ok f
  end.

Definition py_add (x y : num) : result num :=
  match x, y with
  | Int a, Int b => Ok (Int (a + b))
  | _, _ => let* a := to_float x in let* b := to_float y in Ok (Float (a + b))
  end.

Definition py_sub (x y : num) : result num :=
  match x, y with
  | Int a, Int b => Ok (Int (a - b))
  | _, _ => let* a := to_float x in let* b := to_float y in Ok (Float (a - b))
  end.

Definition py_mul (x y : num) : result num :=
  match x, y with
  | Int a, Int b => Ok (Int (a * b))
  | _, _ => let* a := to_float x in let* b := to_float y in Ok (Float (a * b))
  end.

(** The number in a value: Python counts [True] and [False] as 1 and 0. *)
Definition as_num (v : pyval) : option num :=
  match v with
  | VBool b => Some (Int (if b then 1 else 0))
  | VInt z => Some (Int z)
  | VFloat f => Some (Float f)
  | _ => None
  end.

Definition of_num (x : num) : pyval :=
  match x with
  | Int z => VInt z
  | Float f => VFloat f
  end.

(** [x + y] on values: numbers add, strings and lists concatenate, and
    anything else is a [TypeError]. *)
Definition py_plus (x y : pyval) : result pyval :=
  match as_num x, as_num y with
  | Some a, Some b => let* sum := py_add a b in Ok (of_num sum)
  | _, _ =>
      match x, y with
      | VStr a, VStr b => Ok (VStr (a ++ b))
      | VList a, VList b => Ok (VList (a ++ b)%list)
      | _, _ => Raise TypeError
      end
  end.

(** ** The dashboard *)

Module dashboard.

(** [json.dumps] and [json.loads]; the text of a document stays abstract. *)
Class Json := {
  json_text : Type;
  json_dumps : pyval -> json_text;
  json_loads : json_text -> result pyval
}.

(** [requests]: what a GET gives back, and [response.json()]. *)
Class Requests := {
  Response : Type;
  Response_json : Response -> result pyval
}.

(** [Crawler.METRICS_ENDPOINT], a constant of [monitor/crawler.py]. *)
Class CrawlerConstants := {
  METRICS_ENDPOINT : string
}.

(** The blockchain client: token amounts, the staker actor and the
    staking agent of [nucypher], each query a read of the chain. *)
Class Nucypher := {
  NU : Type;
  NU_from_nunits : num -> result NU;
  NU_round : NU -> Z -> result NU;
  NU_str : NU -> string;
  Registry : Type;
  Chain : Type;
  Staker : Type;
  Staker_init : Chain -> Registry -> string -> result Staker;
  Nickname_from_seed : string -> result string;
  owned_tokens : Staker -> Chain -> result NU;
  locked_tokens : Staker -> Z -> Chain -> result NU;
  is_restaking : Staker -> Chain -> result bool;
  is_winding_down : Staker -> Chain -> result bool;
  is_taking_snapshots : Staker -> Chain -> result bool;
  last_committed_period : Staker -> Chain -> result Z;
  get_current_period : Chain -> result Z;
  worker_address : Staker -> Chain -> result string;
  calculate_policy_fee : Staker -> Chain -> result Z;
  min_fee_rate : Staker -> Chain -> result Z;
  prettify_eth_amount : Z -> result string
}.

Record BaseEconomics := {
  total_supply : Z;
  initial_supply : Z
}.

(** What [flask.jsonify] is given. *)
Inductive FlaskResponse : Type :=
| jsonify (body : pyval).

Section dashboard.
Context `{Builtins} `{components.Maya} `{Json} `{Requests} `{CrawlerConstants} `{Nucypher}.

(** Everything outside the process that the dashboard talks to, and the
    page it serves. *)
Record World := {
  (** the crawler's answer to the n-th GET of a URL *)
  crawler : string -> nat -> result Response;
  (** GETs issued so far *)
  n_requests : nat;
  (** the [children] of the page's hidden [cached-crawler-stats] element *)
  cached_crawler_stats : option json_text;
  (** what [self.log] has emitted *)
  log : list string;
  chain : Chain
}.

Definition set_cached_crawler_stats (v : option json_text) (w : World) : World :=
  {| crawler := crawler w; n_requests := n_requests w;
     cached_crawler_stats := v; log := log w; chain := chain w |}.

(** A computation in the world: it returns or raises, and leaves a world. *)
Definition M (A : Type) : Type := World -> result A * World.

Definition ret {A} (a : A) : M A := fun w => (Ok a, w).

Definition mbind {A B} (c : M A) (k : A -> M B) : M B :=
  fun w =>
    match c w with
    | (Ok a, w') => k a w'
    | (Raise e, w') => (Raise e, w')
    end.

Definition lift {A} (r : result A) : M A := fun w => (r, w).

(** A query of the blockchain client. *)
Definition call {A} (q : Chain -> result A) : M A := fun w => (q (chain w), w).

(** [requests.get(url=url)]. *)
Definition requests_get (url : string) : M Response :=
  fun w =>
    (crawler w url (n_requests w),
     {| crawler := crawler w; n_requests := S (n_requests w);
        cached_crawler_stats := cached_crawler_stats w; log := log w;
        chain := chain w |}).

Record Dashboard := {
  crawler_host : string;
  crawler_port : Z;
  network : string;
  registry : Registry;
  economics : BaseEconomics
}.

Local Notation "x <- c ;; k" := (mbind c (fun x => k))
  (at level 61, c at next level, right associativity).

Definition make_request (self : Dashboard) : M pyval :=
  let url := "http://" ++ crawler_host self ++ ":" ++ str_of_int (crawler_port self)
             ++ "/" ++ METRICS_ENDPOINT in
  response <- requests_get url ;;
  payload <- lift (Response_json response) ;;
  ret payload.

Definition verify_cached_stats (self : Dashboard) (cached_stats : option json_text) : M pyval :=
  match cached_stats with
  | None =>
      (* cached stats may not have been populated by the time it is
         attempted to be read from: get data directly from the crawler *)
      make_request self
  | Some text => lift (json_loads text)
  end.

(** [str(round(NU.from_nunits(x), 2))]. *)
Definition nu_text (x : num) : result string :=
  let* nu := NU_from_nunits x in
  let* rounded := NU_round nu 2 in
  Ok (NU_str rounded).

Definition supply_information (economics : BaseEconomics) : M FlaskResponse :=
  lift
    (let total_supply := Int (total_supply economics) in
     let initial_supply := Int (initial_supply economics) in
     (* Overview *)
     let* total_text := nu_text total_supply in
     let* initial_text := nu_text initial_supply in
     let* rewards := py_sub total_supply initial_supply in
     let* rewards_text := nu_text rewards in
     (* Allocations *)
     let* investor_fraction := py_add (Float 0.319) (Float 0.08) in
     let* investor_supply := py_mul investor_fraction initial_supply in
     let* team_supply := py_mul (Float 0.106) initial_supply in
     let* nuco_supply := py_mul (Float 0.2) initial_supply in
     let* investors_text := nu_text investor_supply in
     let* team_text := nu_text team_supply in
     let* company_text := nu_text nuco_supply in
     (* Non-internal supply *)
     let* rest := py_sub initial_supply investor_supply in
     let* rest := py_sub rest team_supply in
     let* rest := py_sub rest nuco_supply in
     let* est_circulating_supply := nu_text rest in
     Ok (jsonify
           (VDict [("total_supply", VStr total_text);
                   ("initial_supply", VStr initial_text);
                   ("staking_rewards_supply", VStr rewards_text);
                   ("internal_allocations",
                    VDict [("investors", VStr investors_text);
                           ("team", VStr team_text);
                           ("company", VStr company_text)]);
                   ("est_circulating_supply", VStr est_circulating_supply)]))).

Definition staker_information (self : Dashboard) (staker_address : string) : M FlaskResponse :=
  staker <- call (fun c => Staker_init c (registry self) staker_address) ;;
  nickname <- lift (Nickname_from_seed staker_address) ;;
  owned <- call (owned_tokens staker) ;;
  owned_in_nu <- lift (NU_round owned 2) ;;
  current_locked <- call (locked_tokens staker 0) ;;
  current_locked_tokens <- lift (NU_round current_locked 2) ;;
  next_locked <- call (locked_tokens staker 1) ;;
  next_locked_tokens <- lift (NU_round next_locked 2) ;;
  restaking <- call (is_restaking staker) ;;
  winding_down <- call (is_winding_down staker) ;;
  taking_snapshots <- call (is_taking_snapshots staker) ;;
  last_committed <- call (last_committed_period staker) ;;
  current_period <- call get_current_period ;;
  let missing_commitments := (current_period - last_committed)%Z in
  worker <- call (worker_address staker) ;;
  fee <- call (calculate_policy_fee staker) ;;
  fees <- lift (prettify_eth_amount fee) ;;
  rate <- call (min_fee_rate staker) ;;
  min_rate <- lift (prettify_eth_amount rate) ;;
  ret (jsonify
         (VDict [("staker_address", VStr staker_address);
                 ("nickname", VStr nickname);
                 ("owned_tokens", VStr (NU_str owned_in_nu));
                 ("staked_current_period", VStr (NU_str current_locked_tokens));
                 ("staked_next_period", VStr (NU_str next_locked_tokens));
                 ("restake", VBool restaking);
                 ("winddown", VBool winding_down);
                 ("snapshots", VBool taking_snapshots);
                 ("missed_commitments", VInt missing_commitments);
                 ("worker_address", VStr worker);
                 ("unclaimed_fees", VStr fees);
                 ("min_fee_rate", VStr min_rate)])).

(** *** Callbacks of [make_dash_app] *)

Definition update_cached_stats (self : Dashboard) (n_intervals : Z) : M json_text :=
  payload <- make_request self ;;
  ret (json_dumps payload).

(** The items a [for] loop takes from a value. *)
Definition py_iter (v : pyval) : result (list pyval) :=
  match v with
  | VList l => Ok l
  | VDict d => Ok (map VStr (keys d))
  | VStr s => Ok (map (fun c => VStr (String c "")) (list_ascii_of_string s))
  | _ => Raise TypeError
  end.

Definition state (self : Dashboard) (n_intervals : Z)
           (latest_crawler_stats : option json_text) : M html :=
  data <- verify_cached_stats self latest_crawler_stats ;;
  states <- lift (subscript data "prev_states") ;;
  states <- lift (py_iter states) ;;
  lift (components.previous_states states).

Definition current_period (self : Dashboard) (n : Z)
           (latest_crawler_stats : option json_text) : M html :=
  data <- verify_cached_stats self latest_crawler_stats ;;
  period <- lift (subscript data "current_period") ;;
  ret (Elem "Div"
            (Seq [Elem "H4" (Raw (VStr "Current Period")) [];
                  Elem "H5" (Raw period) [("id", VStr "current-period-value")]])
            []).

(** *** Dash's dispatch of the callbacks *)

(** [request-interval] fires: Dash runs [update_cached_stats] and writes
    what it returns into [cached-crawler-stats]; when the callback raises,
    nothing is written. *)
Definition fire_request_interval (self : Dashboard) (n_intervals : Z) (w : World) : World :=
  match update_cached_stats self n_intervals w with
  | (Ok text, w') => set_cached_crawler_stats (Some text) w'
  | (Raise _, w') => w'
  end.

(** [minute-interval] fires: every callback bound to it is run with the
    [State] the page held at that moment. *)
Definition fire_minute_interval (self : Dashboard) (n : Z) (w : World)
  : (result html * result html) * World :=
  let latest_crawler_stats := cached_crawler_stats w in
  let '(prev_states, w1) := state self n latest_crawler_stats w in
  let '(period, w2) := current_period self n latest_crawler_stats w1 in
  ((prev_states, period), w2).

(** *** More callbacks of [make_dash_app] *)

Definition active_stakers (self : Dashboard) (n : Z)
           (latest_crawler_stats : option json_text) : M html :=
  data <- verify_cached_stats self latest_crawler_stats ;;
  data <- lift (subscript data "activity") ;;
  confirmed <- lift (subscript data "active") ;;
  pending <- lift (subscript data "pending") ;;
  inactive <- lift (subscript data "inactive") ;;
  partial <- lift (py_plus confirmed pending) ;;
  total_stakers <- lift (py_plus partial inactive) ;;
  ret (Elem "Div"
            (Seq [Elem "H4" (Raw (VStr "Active Ursulas")) [];
                  Elem "H5" (Raw (VStr (py_str confirmed ++ "/" ++ py_str total_stakers)))
                       [("id", VStr "active-ursulas-value")]])
            []).

(** The nested [known_nodes] of [make_dash_app]. It passes [network] by
    keyword to [components.known_nodes], whose parameters are [nodes_dict]
    and [teacher_checksum] only: Python evaluates the arguments and then
    refuses the call with a [TypeError]. *)
Definition known_nodes (self : Dashboard) (latest_crawler_stats : option json_text) : M html :=
  data <- verify_cached_stats self latest_crawler_stats ;;
  nodes_dict <- lift (subscript data "node_details") ;;
  lift (Raise TypeError).

(** *** Flask around the dispatch *)

(** The request of a [request-interval] tick as Flask serves it: the value
    the callback returns is written to the page as above; an exception that
    leaves the callback is written to the application's log by Flask and
    answered with status 500 to the request that ran it, so that no other
    callback receives it. The page after the request, and what Flask
    logged. *)
Definition serve_request_interval (self : Dashboard) (n_intervals : Z) (w : World)
  : World * list exn :=
  match update_cached_stats self n_intervals w with
  | (Ok text, w') => (set_cached_crawler_stats (Some text) w', [])
  | (Raise e, w') => (w', [e])
  end.

End dashboard.
End dashboard.

(** * Vocabulary of the properties *)

(** ** Observations on rendered components *)

Definition props_of (c : html) : list (string * pyval) :=
  match c with
  | Elem _ _ props => props
  | _ => []
  end.

Definition children_of (c : html) : list html :=
  match c with
  | Elem _ (Seq l) _ => l
  | Elem _ child _ => [child]
  | _ => []
  end.

Definition class_of (c : html) : string :=
  match get "className" (props_of c) with
  | Some (VStr s) => s
  | _ => ""
  end.

(** The bare current-state [html.Span] that [state_detail] appends. *)
Definition is_annotation (c : html) : bool :=
  match c with
  | Elem tag child props =>
      match props, child with
      | [], Raw (VStr s) => String.eqb tag "Span" && String.eqb s "(*Current)"
      | _, _ => false
      end
  | _ => false
  end.

Definition has_current_class (detail : html) : bool :=
  String.eqb (class_of detail) "state state-current".

Definition has_current_annotation (detail : html) : bool :=
  existsb is_annotation (children_of detail).

(** A state as the crawler reports it: a dict with the four fields
    [state_detail] reads. *)
Definition is_state (v : pyval) : bool :=
  match v with
  | VDict d =>
      match get "symbol" d, get "color_hex" d, get "nickname" d, get "updated" d with
      | Some _, Some _, Some _, Some _ => true
      | _, _, _, _ => false
      end
  | _ => false
  end.

(** The teacher's colours on a row of the node table. *)
Definition highlighted (row : html) : bool :=
  match get "style" (props_of row) with
  | Some (VDict style) =>
      match get "backgroundColor" style with
      | Some _ => true
      | None => false
      end
  | _ => false
  end.

(** The results a loop that appends collects, by position. *)
Fixpoint traverse_from {A B} (f : nat -> A -> result B) (idx : nat) (xs : list A)
  : result (list B) :=
  match xs with
  | [] => Ok []
  | x :: xs' =>
      let* y := f idx x in
      let* ys := traverse_from f (S idx) xs' in
      Ok (y :: ys)
  end.

Section components_vocabulary.
Context `{Builtins} `{components.Maya}.
Import components.

(** What [state_detail] builds from the four fields. *)
Definition detail_of (symbol color_hex nickname updated : pyval) (current_state : bool) : html :=
  Elem "Div"
       (Seq ([Elem "Div" (Seq [Elem "Div" (Raw symbol) [("className", VStr "single-symbol")]])
                   [("className", VStr "nucypher-nickname-icon");
                    ("style", VDict [("border-color", color_hex)])];
              Elem "Span" (Raw nickname) [("title", updated)]]
             ++ (if current_state then [Elem "Span" (Raw (VStr "(*Current)")) []] else []))%list)
       [("className", VStr (if current_state then "state state-current" else "state"));
        ("style", VDict [("background-color", color_hex)])].

(** The page [previous_states] puts around the cells of the state row. *)
Definition states_page (details : list html) : html :=
  Elem "Div"
       (Seq [Elem "H4" (Raw (VStr "Previous States")) [];
             Elem "Div"
                  (Seq [Elem "Table"
                             (Seq [Elem "Tr" (Seq (map (fun d => Elem "Td" d []) details))
                                        [("id", VStr "state-table")]])
                             []])
                  []])
       [("className", VStr "row")].

(** The entries of [nodes_dict] that get a row. *)
Definition live (nodes_dict : list (string * pyval)) : list (string * pyval) :=
  filter (fun kv => truthy (snd kv)) nodes_dict.

Definition skipped (nodes_dict : list (string * pyval)) : list (string * pyval) :=
  filter (fun kv => negb (truthy (snd kv))) nodes_dict.

Definition is_teacher (teacher_checksum : option string) (checksum : string) : bool :=
  match teacher_checksum with
  | Some t => String.eqb checksum t
  | None => false
  end.

(** The row [nodes_table] builds from a node's components. *)
Definition node_row (components : list (string * html)) (teacher : bool) : html :=
  Elem "Tr" (Seq (filter component_truthy (map snd components)))
       [("style",
         VDict (("overflowY", VStr "scroll")
                  :: (if teacher
                      then [("backgroundColor", VStr "#1E65F3"); ("color", VStr "white")]
                      else [])));
        ("className", VStr "node-row")].

Definition node_table_of (rows : list html) : html :=
  Elem "Table"
       (Seq (Elem "Tr" (Seq (map (fun col => Elem "Th" (Raw (VStr col)) []) NODE_TABLE_COLUMNS))
                  [("className", VStr "table-header")]
               :: rows))
       [("id", VStr "node-table")].

(** The page [known_nodes] returns: the legend, the count and the table. *)
Definition nodes_page (count : nat) (rows : list html) : html :=
  Elem "Div"
       (Seq [Elem "H4" (Raw (VStr "Network Nodes")) [];
             Elem "Div"
                  (Seq [Elem "Div" (Raw (VStr "* Current Teacher"))
                             [("style", VDict [("backgroundColor", VStr "#1E65F3");
                                               ("color", VStr "white")]);
                              ("className", VStr "two columns")]])
                  [];
             Elem "Br" (Raw VNone) [];
             Elem "H6" (Raw (VStr ("Known Nodes: " ++ str_of_nat count))) [];
             Elem "Div" (Seq [node_table_of rows]) []])
       [].

Definition teacher_at (index : nat) (teacher_index : option nat) : bool :=
  match teacher_index with
  | Some t => Nat.eqb index t
  | None => false
  end.

Fixpoint index_of (key : string) (ks : list string) : option nat :=
  match ks with
  | [] => None
  | k :: ks' => if String.eqb k key then Some 0 else option_map S (index_of key ks')
  end.

(** The value under a key of a record, [None] when there is none. *)
Definition field (key : string) (v : pyval) : pyval :=
  match subscript v key with
  | Ok x => x
  | Raise _ => VNone
  end.

(** A node record as the crawler reports it: a dict with the seven fields
    the table reads, an address that can be sliced and a status that has a
    message and a colour. *)
Definition is_node (v : pyval) : bool :=
  match subscript v "nickname", subscript v "rest_url", subscript v "fleet_state_icon",
        subscript v "staker_address", subscript v "last_seen", subscript v "status",
        subscript v "timestamp" with
  | Ok _, Ok _, Ok _, Ok address, Ok _, Ok status, Ok _ =>
      match slice_to 10 address, subscript status "status", subscript status "color" with
      | Ok _, Ok _, Ok _ => true
      | _, _, _ => false
      end
  | _, _, _, _, _, _, _ => false
  end.

End components_vocabulary.

Section dashboard_vocabulary.
Context `{Builtins} `{components.Maya} `{dashboard.Json} `{dashboard.Requests}
        `{dashboard.CrawlerConstants} `{dashboard.Nucypher}.
Import dashboard.

(** The address [make_request] asks. *)
Definition metrics_url (self : Dashboard) : string :=
  "http://" ++ crawler_host self ++ ":" ++ str_of_int (crawler_port self)
  ++ "/" ++ METRICS_ENDPOINT.

(** The world after one more GET. *)
Definition sent (w : World) : World :=
  {| crawler := crawler w; n_requests := S (n_requests w);
     cached_crawler_stats := cached_crawler_stats w; log := log w; chain := chain w |}.

(** What the next fetch will give: the decoded payload or the exception of
    the transport or of the decoder. *)
Definition next_fetch (self : Dashboard) (w : World) : result pyval :=
  let* response := crawler w (metrics_url self) (n_requests w) in
  Response_json response.

(** [k] consumers in a row that each find no snapshot on the page. *)
Fixpoint cold_reads (self : Dashboard) (k : nat) (w : World) : World :=
  match k with
  | O => w
  | S k' => cold_reads self k' (snd (verify_cached_stats self None w))
  end.

(** What the [state] callback shows of a snapshot. *)
Definition states_widget (data : pyval) : result html :=
  let* states := subscript data "prev_states" in
  let* states := py_iter states in
  components.previous_states states.

(** What the [current_period] callback shows of a snapshot. *)
Definition period_widget (data : pyval) : result html :=
  let* period := subscript data "current_period" in
  Ok (Elem "Div"
           (Seq [Elem "H4" (Raw (VStr "Current Period")) [];
                 Elem "H5" (Raw period) [("id", VStr "current-period-value")]])
           []).

(** A computation that leaves the world as it is and whose outcome is
    settled by the chain alone. *)
Definition chain_only {A} (c : M A) : Prop :=
  forall w,
    snd (c w) = w
    /\ forall w', chain w' = chain w -> fst (c w') = fst (c w).

(** NuNits in a number of whole tokens: a NU has 18 decimals. *)
Definition tokens (n : Z) : Z := n * 10 ^ 18.

(** The circulating supply as the allocation fractions give it, in binary64. *)
Definition circulating (initial_supply : float) : float :=
  (initial_supply - 0.399 * initial_supply - 0.106 * initial_supply
   - 0.2 * initial_supply)%float.

(** 400,000 tokens in NuNits, as a float. *)
Definition initial_400k : float := 0x1.52d02c7e14af6p+78%float.

End dashboard_vocabulary.

(** ** Concrete collaborators and records for the examples *)

Module examples.

Definition example_state (nickname : string) : pyval :=
  VDict [("nickname", VStr nickname); ("symbol", VStr "+");
         ("color_hex", VStr "#8B4513"); ("updated", VStr "2020-06-01T10:00:00Z")].

Definition example_builtins : Builtins :=
  {| py_repr := fun _ => "<object>"; constant_truthy := true |}.

(** A stand-in for [maya]: it takes the text for a timestamp when it has
    the dashes and the [T] of [YYYY-MM-DDTHH:MM:SSZ] in place. *)
Definition example_maya : components.Maya :=
  {| components.MayaDT := string;
     components.from_rfc3339 :=
       fun v =>
         match v with
         | VStr s =>
             match String.get 4 s, String.get 7 s, String.get 10 s with
             | Some "-"%char, Some "-"%char, Some "T"%char => Ok s
             | _, _, _ => Raise ParserError
             end
         | _ => Raise ParserError
         end;
     components.slang_time := fun _ => "moments ago" |}.

Definition example_node (nickname address last_seen : string) : pyval :=
  VDict [("nickname", VStr nickname);
         ("rest_url", VStr "10.0.0.7:9151");
         ("fleet_state_icon", VStr "+");
         ("staker_address", VStr address);
         ("last_seen", VStr last_seen);
         ("status", VDict [("status", VStr "OK"); ("color", VStr "green")]);
         ("timestamp", VStr "2020-05-30T08:00:00Z")].

Definition node_A : pyval :=
  example_node "Amber" "0xAAAAAAAAAAAAAAAAAAAAAAAAAAAAAAAAAAAAAAAA" "2020-06-01T10:00:00Z".
Definition node_B : pyval :=
  example_node "Blue" "0xBBBBBBBBBBBBBBBBBBBBBBBBBBBBBBBBBBBBBBBB" "2020-06-01T10:01:00Z".
Definition node_C : pyval :=
  example_node "Coral" "0xCCCCCCCCCCCCCCCCCCCCCCCCCCCCCCCCCCCCCCCC" "yesterday, probably".

(** The components of a record that renders. *)
Definition rendered (v : pyval) : list (string * html) :=
  match @components.generate_node_table_components example_builtins example_maya v with
  | Ok c => c
  | Raise _ => []
  end.

(** An ideal JSON codec: a document is kept as the value it encodes. *)
Definition example_json : dashboard.Json :=
  {| dashboard.json_text := pyval;
     dashboard.json_dumps := fun v => v;
     dashboard.json_loads := fun text => Ok text |}.

(** A response is kept as what its [json()] gives. *)
Definition example_requests : dashboard.Requests :=
  {| dashboard.Response := result pyval;
     dashboard.Response_json := fun response => response |}.

Definition example_crawler_constants : dashboard.CrawlerConstants :=
  {| dashboard.METRICS_ENDPOINT := "stats" |}.

(** A stand-in for the blockchain client: amounts are shown in NuNits and
    every staker has the same standing. *)
Definition example_nucypher : dashboard.Nucypher :=
  {| dashboard.NU := num;
     dashboard.NU_from_nunits := fun x => Ok x;
     dashboard.NU_round := fun nu _ => Ok nu;
     dashboard.NU_str :=
       fun nu => match nu with
                 | Int z => str_of_int z ++ " NuNit"
                 | Float _ => "<float> NuNit"
                 end;
     dashboard.Registry := unit;
     dashboard.Chain := Z;
     dashboard.Staker := string;
     dashboard.Staker_init := fun _ _ address => Ok address;
     dashboard.Nickname_from_seed := fun address => Ok ("Nick of " ++ address);
     dashboard.owned_tokens := fun _ _ => Ok (Int 15000);
     dashboard.locked_tokens := fun _ _ _ => Ok (Int 15000);
     dashboard.is_restaking := fun _ _ => Ok true;
     dashboard.is_winding_down := fun _ _ => Ok false;
     dashboard.is_taking_snapshots := fun _ _ => Ok true;
     dashboard.last_committed_period := fun _ period => Ok (period - 1)%Z;
     dashboard.get_current_period := fun period => Ok period;
     dashboard.worker_address := fun _ _ => Ok "0xWORKER";
     dashboard.calculate_policy_fee := fun _ _ => Ok 0%Z;
     dashboard.min_fee_rate := fun _ _ => Ok 50%Z;
     dashboard.prettify_eth_amount := fun amount => Ok (str_of_int amount ++ " wei") |}.

#[local] Existing Instance example_builtins.
#[local] Existing Instance example_maya.
#[local] Existing Instance example_json.
#[local] Existing Instance example_requests.
#[local] Existing Instance example_crawler_constants.
#[local] Existing Instance example_nucypher.

Definition example_dashboard : dashboard.Dashboard :=
  {| dashboard.crawler_host := "localhost";
     dashboard.crawler_port := 9555;
     dashboard.network := "mainnet";
     dashboard.registry := tt;
     dashboard.economics :=
       {| dashboard.total_supply := tokens 1000000;
          dashboard.initial_supply := tokens 400000 |} |}.

(** The payload the crawler serves while the chain is in a given period. *)
Definition snapshot (period : Z) : pyval :=
  VDict [("prev_states", VList [example_state "Sienna"]); ("current_period", VInt period)].

(** A freshly loaded page in front of a crawler whose n-th answer reports
    period n + 1. *)
Definition cold_world : dashboard.World :=
  {| dashboard.crawler := fun _ n => Ok (Ok (snapshot (Z.of_nat n + 1)));
     dashboard.n_requests := 0;
     dashboard.cached_crawler_stats := None;
     dashboard.log := [];
     dashboard.chain := 7%Z |}.

(** A page holding the snapshot of period 7 while the crawler is down. *)
Definition crawler_down_world : dashboard.World :=
  {| dashboard.crawler := fun _ _ => Raise (RequestException "connection refused");
     dashboard.n_requests := 3;
     dashboard.cached_crawler_stats := Some (snapshot 7);
     dashboard.log := [];
     dashboard.chain := 7%Z |}.

(** The same page while the crawler answers with a body that is not JSON. *)
Definition crawler_garbled_world : dashboard.World :=
  {| dashboard.crawler := fun _ _ => Ok (Raise JSONDecodeError);
     dashboard.n_requests := 3;
     dashboard.cached_crawler_stats := Some (snapshot 7);
     dashboard.log := [];
     dashboard.chain := 7%Z |}.

End examples.
Import examples.

(** ** Vocabulary of the further properties *)

(** The first of the keys that a dict lacks. *)
Fixpoint first_missing {V} (ks : list string) (d : list (string * V)) : option string :=
  match ks with
  | [] => None
  | k :: ks' =>
      match get k d with
      | Some _ => first_missing ks' d
      | None => Some k
      end
  end.

(** The rows of a rendered node table, below its header. *)
Definition table_rows (table : html) : list html := tl (children_of table).

Section further_vocabulary.
Context `{Builtins} `{components.Maya}.
Import components.

(** The six cells of a node record, for a given content of Last Seen. *)
Definition components_of (node_info shown : pyval) : list (string * html) :=
  [("Status",
    Elem "Td"
         (Elem "Indicator" (Raw VNone)
               [("id", VStr "Status");
                ("color", field "color" (field "status" node_info));
                ("value", VBool true);
                ("label", field "status" (field "status" node_info));
                ("labelPosition", VStr "right");
                ("size", VInt 25)])
         []);
   ("Checksum",
    Elem "Td"
         (Elem "A"
               (Raw (VStr (py_str (match slice_to 10 (field "staker_address" node_info) with
                                   | Ok prefix => prefix
                                   | Raise _ => VNone
                                   end)
                           ++ "...")))
               [("href", VStr ("https://goerli.etherscan.io/address/"
                               ++ py_str (field "staker_address" node_info)));
                ("target", VStr "_blank")])
         []);
   ("Nickname",
    Elem "Td"
         (Elem "Div"
               (Seq [Elem "A" (Raw (field "nickname" node_info))
                          [("href", VStr ("https://" ++ py_str (field "rest_url" node_info)
                                          ++ "/status"));
                           ("target", VStr "_blank")]])
               [])
         []);
   ("Launched", Elem "Td" (Raw (field "timestamp" node_info)) []);
   ("Last Seen", Elem "Td" (Seq [Raw shown]) []);
   ("Fleet State",
    Elem "Td"
         (Seq [Elem "Div"
                    (Raw (if is_not_unknown_fleet_state (field "fleet_state_icon" node_info)
                          then field "fleet_state_icon" node_info
                          else VList []))
                    []])
         [])].

(** What the [active_stakers] callback shows of a snapshot. *)
Definition activity_widget (data : pyval) : result html :=
  let* data := subscript data "activity" in
  let* confirmed := subscript data "active" in
  let* pending := subscript data "pending" in
  let* inactive := subscript data "inactive" in
  let* partial := py_plus confirmed pending in
  let* total_stakers := py_plus partial inactive in
  Ok (Elem "Div"
           (Seq [Elem "H4" (Raw (VStr "Active Ursulas")) [];
                 Elem "H5" (Raw (VStr (py_str confirmed ++ "/" ++ py_str total_stakers)))
                      [("id", VStr "active-ursulas-value")]])
           []).

(** The widget of [active_stakers] for a ratio given as text. *)
Definition ratio_widget (ratio : string) : html :=
  Elem "Div"
       (Seq [Elem "H4" (Raw (VStr "Active Ursulas")) [];
             Elem "H5" (Raw (VStr ratio)) [("id", VStr "active-ursulas-value")]])
       [].

(** The fields of the answer of the staker endpoint, in order. *)
Definition STAKER_FIELDS : list string :=
  ["staker_address"; "nickname"; "owned_tokens"; "staked_current_period";
   "staked_next_period"; "restake"; "winddown"; "snapshots"; "missed_commitments";
   "worker_address"; "unclaimed_fees"; "min_fee_rate"].

(** The fields of the answer of the supply endpoint, in order. *)
Definition SUPPLY_FIELDS : list string :=
  ["total_supply"; "initial_supply"; "staking_rewards_supply"; "internal_allocations";
   "est_circulating_supply"].

(** Whether the teacher's checksum is a key of the dict with a truthy
    value, that is, whether the teacher gets a row. *)
Definition teacher_rendered (nodes_dict : list (string * pyval))
           (teacher_checksum : option string) : bool :=
  match teacher_checksum with
  | Some t =>
      match get t nodes_dict with
      | Some v => truthy v
      | None => false
      end
  | None => false
  end.

End further_vocabulary.

(** ** Schedules of refreshes and reads *)

(** What reaches the server, one request after another: a tick of
    [request-interval], or a consumer callback, of which every one begins
    with [verify_cached_stats] on the [State] it is handed. *)
Inductive event : Type :=
| Refresh (n_intervals : Z)
| Read.


Section schedule_vocabulary.
Context `{Builtins} `{components.Maya} `{dashboard.Json} `{dashboard.Requests}
        `{dashboard.CrawlerConstants} `{dashboard.Nucypher}.
Import dashboard.

(** The snapshots the consumers of a schedule read, in order, and the
    world it leaves. A refresh is dispatched as [fire_request_interval]; a
    consumer is handed what the page holds when it is dispatched. *)
Fixpoint run (self : Dashboard) (events : list event) (w : World)
  : list (result pyval) * World :=
  match events with
  | [] => ([], w)
  | Refresh n_intervals :: rest => run self rest (fire_request_interval self n_intervals w)
  | Read :: rest =>
      let step := verify_cached_stats self (cached_crawler_stats w) w in
      (fst step :: fst (run self rest (snd step)), snd (run self rest (snd step)))
  end.

(** No refresh of the schedule succeeds: the schedule stays within one
    refresh cycle. *)
Fixpoint quiet (self : Dashboard) (events : list event) (w : World) : bool :=
  match events with
  | [] => true
  | Refresh n_intervals :: rest =>
      match next_fetch self w with
      | Ok _ => false
      | Raise _ => quiet self rest (fire_request_interval self n_intervals w)
      end
  | Read :: rest =>
      quiet self rest (snd (verify_cached_stats self (cached_crawler_stats w) w))
  end.

End schedule_vocabulary.

(** ** More records and collaborators for the examples *)

Module more_examples.

#[local] Existing Instance example_builtins.
#[local] Existing Instance example_maya.
#[local] Existing Instance example_json.
#[local] Existing Instance example_requests.
#[local] Existing Instance example_crawler_constants.
#[local] Existing Instance example_nucypher.

(** A stand-in for a parser that gives up on every text with an exception
    of its own. *)
Definition overflowing_maya : components.Maya :=
  {| components.MayaDT := string;
     components.from_rfc3339 := fun _ => Raise OverflowError;
     components.slang_time := fun dt => dt |}.

(** A stand-in for [maya] that differs from [example_maya] on the text
    [P1D]: the parser underneath reads it as a duration, which [MayaDT]
    cannot be built from, and the call ends in a [TypeError]. *)
Definition duration_maya : components.Maya :=
  {| components.MayaDT := string;
     components.from_rfc3339 :=
       fun v =>
         match v with
         | VStr s =>
             if String.eqb s "P1D"
             then Raise TypeError
             else @components.from_rfc3339 example_maya v
         | _ => @components.from_rfc3339 example_maya v
         end;
     components.slang_time := fun _ => "moments ago" |}.

(** A node whose [last_seen] is the text [P1D]. *)
Definition node_D : pyval :=
  example_node "Dune" "0xDDDDDDDDDDDDDDDDDDDDDDDDDDDDDDDDDDDDDDDD" "P1D".

(** A codec over texts that need not be JSON: [None] stands for a text
    that is not. *)
Definition partial_json : dashboard.Json :=
  {| dashboard.json_text := option pyval;
     dashboard.json_dumps := fun v => Some v;
     dashboard.json_loads :=
       fun text => match text with
                   | Some v => Ok v
                   | None => Raise JSONDecodeError
                   end |}.

(** A payload with the staker counts and an entry for the node table. *)
Definition activity_snapshot : pyval :=
  VDict [("activity",
          VDict [("active", VInt 12); ("pending", VInt 3); ("inactive", VInt 5)]);
         ("node_details", VDict [("0xA", node_A)])].

(** [activity_snapshot] as the ideal codec stores it. *)
Definition activity_text : @dashboard.json_text example_json := activity_snapshot.

(** A page that holds [activity_snapshot]. *)
Definition activity_world : dashboard.World :=
  {| dashboard.crawler := fun _ _ => Ok (Ok activity_snapshot);
     dashboard.n_requests := 1;
     dashboard.cached_crawler_stats := Some activity_text;
     dashboard.log := [];
     dashboard.chain := 7%Z |}.

(** A page whose stored text is not JSON. *)
Definition garbled_page_world : @dashboard.World partial_json example_requests example_nucypher :=
  @dashboard.Build_World partial_json example_requests example_nucypher
    (fun _ _ => Ok (Ok activity_snapshot)) 1 (Some None) [] 7%Z.

(** A cold page in front of a crawler that is down. *)
Definition cold_crawler_down_world : dashboard.World :=
  {| dashboard.crawler := fun _ _ => Raise (RequestException "connection refused");
     dashboard.n_requests := 0;
     dashboard.cached_crawler_stats := None;
     dashboard.log := [];
     dashboard.chain := 7%Z |}.

(** A page holding the snapshot of period 7 in front of a crawler that is
    up and whose n-th answer reports period n + 1. *)
Definition warm_world : dashboard.World :=
  {| dashboard.crawler := fun _ n => Ok (Ok (snapshot (Z.of_nat n + 1)));
     dashboard.n_requests := 7;
     dashboard.cached_crawler_stats := Some (snapshot 7);
     dashboard.log := [];
     dashboard.chain := 7%Z |}.

(** What the stand-in client answers about a staker while the chain is in
    period 7. *)
Definition example_staker_body (staker_address : string) : list (string * pyval) :=
  [("staker_address", VStr staker_address);
   ("nickname", VStr ("Nick of " ++ staker_address));
   ("owned_tokens", VStr "15000 NuNit");
   ("staked_current_period", VStr "15000 NuNit");
   ("staked_next_period", VStr "15000 NuNit");
   ("restake", VBool true);
   ("winddown", VBool false);
   ("snapshots", VBool true);
   ("missed_commitments", VInt 1);
   ("worker_address", VStr "0xWORKER");
   ("unclaimed_fees", VStr "0 wei");
   ("min_fee_rate", VStr "50 wei")].

(** What the supply endpoint answers for the economics of the example. *)
Definition example_supply_body : list (string * pyval) :=
  [("total_supply", VStr "1000000000000000000000000 NuNit");
   ("initial_supply", VStr "400000000000000000000000 NuNit");
   ("staking_rewards_supply", VStr "600000000000000000000000 NuNit");
   ("internal_allocations",
    VDict [("investors", VStr "<float> NuNit");
           ("team", VStr "<float> NuNit");
           ("company", VStr "<float> NuNit")]);
   ("est_circulating_supply", VStr "<float> NuNit")].

End more_examples.
Import more_examples.

(** * Properties *)

(** ** Loops that append *)

Lemma for_enumerate_append {A B} (f : nat -> A -> result B)
      (body : nat -> A -> list B -> result (list B)) (xs : list A) :
  (forall i x row, body i x row = let* y := f i x in Ok (row ++ [y])%list) ->
  forall idx acc,
    for_enumerate body idx xs acc
    = let* ys := traverse_from f idx xs in Ok (acc ++ ys)%list.
Proof.
  intros Hbody.
  induction xs as [|x xs IH]; intros idx acc; simpl.
  - now rewrite app_nil_r.
  - rewrite Hbody. destruct (f idx x) as [y|e]; simpl; [|reflexivity].
    rewrite IH. destruct (traverse_from f (S idx) xs) as [ys|e]; simpl; [|reflexivity].
    now rewrite <- app_assoc.
Qed.

Lemma traverse_from_map {A B C} (g : nat -> A -> result B) (h : B -> C) (xs : list A) :
  forall idx,
    traverse_from (fun i x => let* y := g i x in Ok (h y)) idx xs
    = let* ys := traverse_from g idx xs in Ok (map h ys).
Proof.
  induction xs as [|x xs IH]; intros idx; simpl; [reflexivity|].
  destruct (g idx x) as [y|e]; simpl; [|reflexivity].
  rewrite IH. now destruct (traverse_from g (S idx) xs).
Qed.

Section components_facts.
Context `{Builtins} `{components.Maya}.
Import components.

Lemma state_detail_ok (state : pyval) (current_state : bool) :
  is_state state = true ->
  exists symbol color_hex nickname updated,
    state_detail state current_state
    = Ok (detail_of symbol color_hex nickname updated current_state).
Proof.
  destruct state as [| | | | | |d|]; simpl; try discriminate.
  unfold state_detail, subscript, getitem.
  destruct (get "symbol" d) as [symbol|]; [|discriminate].
  destruct (get "color_hex" d) as [color|]; [|discriminate].
  destruct (get "nickname" d) as [nickname|]; [|discriminate].
  destruct (get "updated" d) as [updated|]; [|discriminate].
  intros _. exists symbol, color, nickname, updated.
  destruct current_state; reflexivity.
Qed.

Lemma detail_of_marks symbol color_hex nickname updated (current_state : bool) :
  has_current_class (detail_of symbol color_hex nickname updated current_state) = current_state
  /\ has_current_annotation (detail_of symbol color_hex nickname updated current_state)
     = current_state.
Proof. destruct current_state; split; reflexivity. Qed.

Lemma previous_states_traverse (states : list pyval) :
  previous_states states
  = let* details := traverse_from (fun idx s => state_detail s (Nat.eqb idx 0)) 0 states in
    Ok (states_page details).
Proof.
  unfold previous_states, _states_table.
  rewrite (for_enumerate_append
             (fun idx s => let* d := state_detail s (Nat.eqb idx 0) in Ok (Elem "Td" d [])))
    by (intros i x row; destruct (state_detail x (Nat.eqb i 0)); reflexivity).
  rewrite traverse_from_map.
  destruct (traverse_from _ 0 states); reflexivity.
Qed.

Lemma later_states_unmarked (rest : list pyval) :
  forallb is_state rest = true ->
  forall idx,
    exists others,
      traverse_from (fun i x => state_detail x (Nat.eqb i 0)) (S idx) rest = Ok others
      /\ Forall2 (fun x d => state_detail x false = Ok d) rest others
      /\ Forall (fun d => has_current_class d = false
                          /\ has_current_annotation d = false) others.
Proof.
  induction rest as [|x rest IH]; intros Hstates idx; simpl.
  - exists []. repeat split; constructor.
  - simpl in Hstates. apply andb_true_iff in Hstates as [Hx Hrest].
    destruct (state_detail_ok x false Hx) as (symbol & color & nickname & updated & Hd).
    destruct (IH Hrest (S idx)) as (others & Hothers & Hall & Hmarks).
    exists (detail_of symbol color nickname updated false :: others).
    rewrite Hd, Hothers. simpl. repeat split.
    + constructor; assumption.
    + constructor; [apply (detail_of_marks symbol color nickname updated false)|assumption].
Qed.

(** C9: of a non-empty list of states, [previous_states] renders one cell
    per state in list order; the first carries the current-state class and
    annotation, and no later one carries either. *)
Theorem previous_states_marks_first (s : pyval) (rest : list pyval) :
  forallb is_state (s :: rest) = true ->
  exists first others,
    previous_states (s :: rest) = Ok (states_page (first :: others))
    /\ state_detail s true = Ok first
    /\ Forall2 (fun x d => state_detail x false = Ok d) rest others
    /\ has_current_class first = true
    /\ has_current_annotation first = true
    /\ Forall (fun d => has_current_class d = false
                        /\ has_current_annotation d = false) others.
Proof.
  intros Hstates. simpl in Hstates. apply andb_true_iff in Hstates as [Hs Hrest].
  destruct (state_detail_ok s true Hs) as (symbol & color & nickname & updated & Hd).
  destruct (later_states_unmarked rest Hrest 0) as (others & Hothers & Hall & Hmarks).
  exists (detail_of symbol color nickname updated true), others.
  rewrite previous_states_traverse. simpl. rewrite Hd. simpl. rewrite Hothers. simpl.
  repeat split; try assumption.
Qed.
End components_facts.

Section node_table_facts.
Context `{Builtins} `{components.Maya}.
Import components.

Lemma highlighted_node_row (components : list (string * html)) (teacher : bool) :
  highlighted (node_row components teacher) = teacher.
Proof. destruct teacher; reflexivity. Qed.

Ltac step_bind :=
  match goal with
  | |- context [bind ?c _] =>
      let E := fresh "E" in destruct c eqn:E; cbn [bind]; try discriminate
  end.

Lemma generate_node_table_components_keys (node_info : pyval) (c : list (string * html)) :
  generate_node_table_components node_info = Ok c -> keys c = NODE_TABLE_COLUMNS.
Proof.
  unfold generate_node_table_components.
  repeat step_bind. intros [= <-]. reflexivity.
Qed.

(** The loop over the columns keeps, in column order, the cells that are
    truthy. *)
Lemma row_cells (c : list (string * html)) :
  keys c = NODE_TABLE_COLUMNS ->
  for_in (fun col row =>
            let* cell := getitem c col in
            Ok (if component_truthy cell then (row ++ [cell])%list else row))
         NODE_TABLE_COLUMNS []
  = Ok (filter component_truthy (map snd c)).
Proof.
  unfold keys, NODE_TABLE_COLUMNS.
  do 7 (destruct c as [|[? ?] c]; try discriminate).
  simpl. intros [= -> -> -> -> -> ->].
  unfold for_in, getitem. simpl.
  repeat match goal with
         | |- context [component_truthy ?h] => destruct (component_truthy h)
         end; reflexivity.
Qed.

Lemma nodes_table_traverse (nodes : list pyval) (teacher_index : option nat) :
  nodes_table nodes teacher_index
  = let* rows :=
      traverse_from
        (fun index node_info =>
           let* c := generate_node_table_components node_info in
           Ok (node_row c (teacher_at index teacher_index)))
        0 nodes in
    Ok (node_table_of rows).
Proof.
  unfold nodes_table.
  rewrite (for_enumerate_append
             (fun index node_info =>
                let* c := generate_node_table_components node_info in
                Ok (node_row c (teacher_at index teacher_index)))).
  - destruct (traverse_from _ 0 nodes); reflexivity.
  - intros i x rows.
    destruct (generate_node_table_components x) as [c|e] eqn:Ec; cbn [bind]; [|reflexivity].
    rewrite (row_cells c (generate_node_table_components_keys x c Ec)). cbn [bind].
    unfold node_row, row_style, teacher_at.
    destruct teacher_index as [t|]; [destruct (Nat.eqb i t)|]; reflexivity.
Qed.

Lemma get_of_in {V} (d : list (string * V)) (k : string) (v : V) :
  well_formed d -> In (k, v) d -> get k d = Some v.
Proof.
  unfold well_formed, keys.
  induction d as [|[k' v'] d IH]; simpl; intros Hnd Hin; [contradiction|].
  inversion Hnd as [|? ? Hnotin Hnd']; subst.
  destruct Hin as [[= -> ->]|Hin].
  - now rewrite String.eqb_refl.
  - destruct (String.eqb_spec k k') as [->|_]; [|now apply IH].
    exfalso. apply Hnotin. now apply (in_map fst _ (k', v)).
Qed.

Lemma index_of_absent (t : string) (ks : list string) :
  ~ In t ks -> index_of t ks = None.
Proof.
  induction ks as [|k ks IH]; simpl; intros Hnotin; [reflexivity|].
  destruct (String.eqb_spec k t) as [->|_]; [exfalso; now apply Hnotin; left|].
  rewrite IH; [reflexivity|]. intros Hin. apply Hnotin. now right.
Qed.

Lemma keys_live_incl (d : list (string * pyval)) (k : string) :
  In k (keys (live d)) -> In k (keys d).
Proof.
  unfold keys, live. rewrite !in_map_iff.
  intros (kv & Hk & Hin). apply filter_In in Hin as [Hin _]. now exists kv.
Qed.

Lemma collect_loop (nodes_dict : list (string * pyval)) (teacher_checksum : option string)
      (suffix : list (string * pyval)) :
  (forall k v, In (k, v) suffix -> get k nodes_dict = Some v) ->
  well_formed suffix ->
  forall idx nodes teacher_index,
    for_enumerate
      (fun (_ : nat) checksum '(nodes, teacher_index) =>
         let* node_data := getitem nodes_dict checksum in
         if truthy node_data
         then
           let teacher_index :=
             match teacher_checksum with
             | Some t => if String.eqb checksum t then Some (List.length nodes) else teacher_index
             | None => teacher_index
             end in
           Ok ((nodes ++ [node_data])%list, teacher_index)
         else Ok (nodes, teacher_index))
      idx (keys suffix) (nodes, teacher_index)
    = Ok ((nodes ++ map snd (live suffix))%list,
          match teacher_checksum with
          | Some t =>
              match index_of t (keys (live suffix)) with
              | Some j => Some (List.length nodes + j)
              | None => teacher_index
              end
          | None => teacher_index
          end).
Proof.
  induction suffix as [|[k v] suffix IH]; intros Hget Hnd idx nodes ti.
  - simpl. rewrite app_nil_r. now destruct teacher_checksum.
  - inversion Hnd as [|? ? Hnotin Hnd']; subst.
    cbn [keys map fst for_enumerate]. unfold getitem at 1.
    rewrite (Hget k v (or_introl eq_refl)). cbn [bind].
    assert (Hget' : forall k' v', In (k', v') suffix -> get k' nodes_dict = Some v').
    { intros k' v' Hin. apply Hget. now right. }
    unfold live. cbn [filter snd]. fold (live suffix).
    destruct (truthy v) eqn:Htruthy.
    + fold (keys suffix). rewrite (IH Hget' Hnd' (S idx)).
      cbn [map snd keys fst]. rewrite <- app_assoc. cbn [app]. f_equal. f_equal.
      destruct teacher_checksum as [t|]; [|reflexivity].
      cbn [index_of]. fold (keys (live suffix)).
      destruct (String.eqb_spec k t) as [->|Hneq].
      * rewrite index_of_absent.
        -- now rewrite Nat.add_0_r.
        -- intros Hin. apply Hnotin. now apply keys_live_incl.
      * destruct (index_of t (keys (live suffix))) as [j|]; [|reflexivity].
        cbn [option_map]. rewrite length_app. cbn [List.length]. f_equal. lia.
    + fold (keys suffix). now rewrite (IH Hget' Hnd' (S idx)).
Qed.

Lemma collect_nodes_live (nodes_dict : list (string * pyval)) (teacher_checksum : option string) :
  well_formed nodes_dict ->
  collect_nodes nodes_dict teacher_checksum
  = Ok (map snd (live nodes_dict),
        match teacher_checksum with
        | Some t => index_of t (keys (live nodes_dict))
        | None => None
        end).
Proof.
  intros Hwf. unfold collect_nodes, for_in.
  rewrite (collect_loop nodes_dict teacher_checksum nodes_dict);
    [|intros k v; now apply get_of_in|assumption].
  cbn [app List.length Nat.add]. f_equal. f_equal.
  destruct teacher_checksum as [t|]; [|reflexivity].
  now destruct (index_of t (keys (live nodes_dict))).
Qed.

Lemma live_well_formed (d : list (string * pyval)) :
  well_formed d -> well_formed (live d).
Proof.
  unfold well_formed, keys, live.
  induction d as [|[k v] d IH]; simpl; intros Hnd; [constructor|].
  inversion Hnd as [|? ? Hnotin Hnd']; subst.
  destruct (truthy v); simpl; [|now apply IH].
  constructor; [|now apply IH].
  intros Hin. apply Hnotin. now apply (keys_live_incl d k).
Qed.

Lemma live_skipped_length (d : list (string * pyval)) :
  List.length (live d) + List.length (skipped d) = List.length d.
Proof.
  unfold live, skipped. induction d as [|[k v] d IH]; simpl; [reflexivity|].
  destruct (truthy v); simpl; lia.
Qed.

Lemma teacher_at_index_of (t : string) (ks : list string) :
  NoDup ks ->
  forall j k, nth_error ks j = Some k -> teacher_at j (index_of t ks) = String.eqb k t.
Proof.
  induction ks as [|k0 ks IH]; intros Hnd j k Hnth; [now destruct j|].
  inversion Hnd as [|? ? Hnotin Hnd']; subst. cbn [index_of].
  destruct j as [|j]; cbn [nth_error] in Hnth.
  - injection Hnth as ->.
    destruct (String.eqb k t); [reflexivity|].
    now destruct (index_of t ks).
  - destruct (String.eqb_spec k0 t) as [->|_].
    + cbn [teacher_at Nat.eqb]. symmetry. apply String.eqb_neq.
      intros ->. apply Hnotin. eapply nth_error_In; eassumption.
    + rewrite <- (IH Hnd' j k Hnth).
      now destruct (index_of t ks).
Qed.

Lemma traverse_rows (teacher_index : option nat) (flag : string -> bool)
      (l : list (string * pyval)) :
  forall idx,
    (forall j k, nth_error (keys l) j = Some k -> teacher_at (idx + j) teacher_index = flag k) ->
    (forall kv, In kv l -> exists c, generate_node_table_components (snd kv) = Ok c) ->
    exists rows,
      traverse_from
        (fun index node_info =>
           let* c := generate_node_table_components node_info in
           Ok (node_row c (teacher_at index teacher_index)))
        idx (map snd l)
      = Ok rows
      /\ Forall2 (fun kv row =>
                    exists c, generate_node_table_components (snd kv) = Ok c
                              /\ row = node_row c (flag (fst kv)))
                 l rows.
Proof.
  induction l as [|[k v] l IH]; intros idx Hflag Hok.
  - exists []. split; [reflexivity|constructor].
  - destruct (Hok (k, v) (or_introl eq_refl)) as [c Hc]. cbn [snd] in Hc.
    destruct (IH (S idx)) as (rows & Hrows & Hall).
    { intros j k' Hnth. rewrite <- (Hflag (S j) k' Hnth). f_equal. lia. }
    { intros kv Hin. apply Hok. now right. }
    exists (node_row c (flag k) :: rows).
    cbn [map snd traverse_from]. rewrite Hc. cbn [bind]. rewrite Hrows. cbn [bind].
    pose proof (Hflag 0 k eq_refl) as Hhead. rewrite Nat.add_0_r in Hhead.
    rewrite Hhead. split; [reflexivity|].
    constructor; [|assumption]. exists c. now split.
Qed.

(** What [known_nodes] returns on a dict whose truthy entries all render. *)
Lemma known_nodes_rows (nodes_dict : list (string * pyval)) (teacher_checksum : option string) :
  well_formed nodes_dict ->
  (forall kv, In kv (live nodes_dict) ->
              exists c, generate_node_table_components (snd kv) = Ok c) ->
  exists rows,
    known_nodes nodes_dict teacher_checksum = Ok (nodes_page (List.length nodes_dict) rows)
    /\ Forall2 (fun kv row =>
                  exists c, generate_node_table_components (snd kv) = Ok c
                            /\ row = node_row c (is_teacher teacher_checksum (fst kv)))
               (live nodes_dict) rows.
Proof.
  intros Hwf Hok.
  destruct (traverse_rows
              (match teacher_checksum with
               | Some t => index_of t (keys (live nodes_dict))
               | None => None
               end)
              (is_teacher teacher_checksum) (live nodes_dict) 0)
    as (rows & Hrows & Hall); [|assumption|].
  { intros j k Hnth. cbn [Nat.add].
    destruct teacher_checksum as [t|]; [|reflexivity].
    apply teacher_at_index_of; [|assumption].
    apply (live_well_formed nodes_dict Hwf). }
  exists rows. split; [|assumption].
  unfold known_nodes. rewrite (collect_nodes_live nodes_dict teacher_checksum Hwf).
  cbn [bind]. rewrite nodes_table_traverse, Hrows. reflexivity.
Qed.

Lemma rendered_is_truthy (v : pyval) (c : list (string * html)) :
  generate_node_table_components v = Ok c -> truthy v = true.
Proof.
  unfold generate_node_table_components.
  destruct v as [| | | | | |d|]; try discriminate.
  destruct d as [|kv d]; [discriminate|reflexivity].
Qed.

(** C3: with nodes A, B, C in that order and the teacher checksum equal to
    B's key, [known_nodes] renders the rows of A, B, C in that order and
    only B's row carries the teacher highlight. *)
Theorem known_nodes_marks_teacher (ka kb kc : string) (A B C : pyval)
        (cA cB cC : list (string * html)) :
  well_formed [(ka, A); (kb, B); (kc, C)] ->
  generate_node_table_components A = Ok cA ->
  generate_node_table_components B = Ok cB ->
  generate_node_table_components C = Ok cC ->
  known_nodes [(ka, A); (kb, B); (kc, C)] (Some kb)
  = Ok (nodes_page 3 [node_row cA false; node_row cB true; node_row cC false])
  /\ map highlighted [node_row cA false; node_row cB true; node_row cC false]
     = [false; true; false].
Proof.
  intros Hwf HA HB HC. split; [|reflexivity].
  assert (Hlive : live [(ka, A); (kb, B); (kc, C)] = [(ka, A); (kb, B); (kc, C)]).
  { unfold live. cbn [filter snd].
    now rewrite (rendered_is_truthy A cA HA), (rendered_is_truthy B cB HB),
                (rendered_is_truthy C cC HC). }
  destruct (known_nodes_rows [(ka, A); (kb, B); (kc, C)] (Some kb) Hwf) as (rows & Hpage & Hrows).
  { rewrite Hlive. intros kv [<-|[<-|[<-|[]]]]; cbn [snd]; eauto. }
  rewrite Hpage. rewrite Hlive in Hrows.
  inversion Hrows as [|? rA ? rowsA (c1 & H1 & ->) HrowsA]; subst.
  inversion HrowsA as [|? rB ? rowsB (c2 & H2 & ->) HrowsB]; subst.
  inversion HrowsB as [|? rC ? rowsC (c3 & H3 & ->) HrowsC]; subst.
  inversion HrowsC; subst.
  cbn [snd fst is_teacher] in *.
  rewrite HA in H1. rewrite HB in H2. rewrite HC in H3.
  injection H1 as <-. injection H2 as <-. injection H3 as <-.
  unfold well_formed in Hwf. cbn [keys map fst] in Hwf.
  inversion Hwf as [|? ? Hka Hwf']; subst. inversion Hwf' as [|? ? Hkb _]; subst.
  assert (Hab : String.eqb ka kb = false).
  { apply String.eqb_neq. intros ->. apply Hka. now left. }
  assert (Hcb : String.eqb kc kb = false).
  { apply String.eqb_neq. intros ->. apply Hkb. now left. }
  now rewrite Hab, Hcb, String.eqb_refl.
Qed.

(** C10: [known_nodes] renders one row per key whose value is truthy, in
    dict order, and skips the others; the heading counts every key, so it
    exceeds the number of rows as soon as one entry is skipped; and when the
    teacher's entry is falsy no row is highlighted. *)
Theorem known_nodes_rows_and_count (nodes_dict : list (string * pyval))
        (teacher_checksum : option string) :
  well_formed nodes_dict ->
  (forall kv, In kv nodes_dict -> truthy (snd kv) = true ->
              exists c, generate_node_table_components (snd kv) = Ok c) ->
  exists rows,
    known_nodes nodes_dict teacher_checksum
    = Ok (nodes_page (List.length (keys nodes_dict)) rows)
    /\ Forall2 (fun kv row =>
                  exists c, generate_node_table_components (snd kv) = Ok c
                            /\ row = node_row c (is_teacher teacher_checksum (fst kv)))
               (live nodes_dict) rows
    /\ List.length rows + List.length (skipped nodes_dict) = List.length (keys nodes_dict)
    /\ (skipped nodes_dict <> [] -> List.length rows < List.length (keys nodes_dict))
    /\ (forall t v, teacher_checksum = Some t -> get t nodes_dict = Some v ->
                    truthy v = false -> Forall (fun row => highlighted row = false) rows).
Proof.
  intros Hwf Hok.
  destruct (known_nodes_rows nodes_dict teacher_checksum Hwf) as (rows & Hpage & Hrows).
  { intros kv Hin. apply filter_In in Hin as [Hin Htruthy]. now apply Hok. }
  assert (Hlen : List.length rows + List.length (skipped nodes_dict)
                 = List.length (keys nodes_dict)).
  { unfold keys. rewrite length_map, <- (live_skipped_length nodes_dict).
    now rewrite (Forall2_length Hrows). }
  exists rows. unfold keys at 1. rewrite length_map.
  repeat split; try assumption.
  - intros Hskipped. destruct (skipped nodes_dict); [contradiction|].
    cbn [List.length] in Hlen. lia.
  - intros t v -> Hget Hfalsy.
    assert (Hnot : forall kv, In kv (live nodes_dict) -> String.eqb (fst kv) t = false).
    { intros [k v'] Hin. apply filter_In in Hin as [Hin Htruthy]. cbn [fst snd] in *.
      apply String.eqb_neq. intros ->.
      rewrite (get_of_in nodes_dict t v' Hwf Hin) in Hget.
      injection Hget as ->. congruence. }
    clear Hpage Hlen. induction Hrows as [|kv row l rows' (c & _ & ->) _ IH]; constructor.
    + cbn [is_teacher]. rewrite (Hnot kv (or_introl eq_refl)). reflexivity.
    + apply IH. intros kv' Hin. apply Hnot. now right.
Qed.

(** C7 (amended): for a node record whose [last_seen] the parser rejects
    with [ParserError], [generate_node_table_components] does not raise: it
    returns the six cells, the Last Seen cell holding the raw value and the
    other five built from the record's fields as for any other record. *)
Theorem unparseable_last_seen_is_shown_raw (node_info : pyval) :
  is_node node_info = true ->
  from_rfc3339 (field "last_seen" node_info) = Raise ParserError ->
  generate_node_table_components node_info
  = Ok (components_of node_info (field "last_seen" node_info)).
Proof.
  intros Hnode Hparse. unfold is_node in Hnode. unfold components_of, field in *.
  repeat match type of Hnode with
         | context [match ?x with _ => _ end] => destruct x eqn:?; try discriminate
         end.
  unfold generate_node_table_components, generate_node_status_icon.
  repeat match goal with
         | E : _ = Ok _ |- _ => rewrite E; cbn [bind]
         end.
  rewrite Hparse.
  repeat match goal with
         | E : _ = Ok _ |- _ => rewrite E; cbn [bind]
         end.
  destruct (is_not_unknown_fleet_state _); reflexivity.
Qed.
End node_table_facts.

Lemma previous_states_marks_first_witness :
  forallb is_state [example_state "Sienna"; example_state "Olive"] = true
  /\ exists first others,
      components.previous_states [example_state "Sienna"; example_state "Olive"]
      = Ok (states_page (first :: others))
      /\ components.state_detail (example_state "Sienna") true = Ok first
      /\ Forall2 (fun x d => components.state_detail x false = Ok d)
                 [example_state "Olive"] others
      /\ has_current_class first = true
      /\ has_current_annotation first = true
      /\ Forall (fun d => has_current_class d = false
                          /\ has_current_annotation d = false) others.
Proof.
  split; [reflexivity|].
  apply (previous_states_marks_first (example_state "Sienna") [example_state "Olive"]).
  reflexivity.
Defined.

Lemma example_keys_distinct (v1 v2 v3 : pyval) :
  well_formed [("0xA", v1); ("0xB", v2); ("0xC", v3)].
Proof.
  unfold well_formed. cbn [keys map fst].
  repeat constructor; cbn [In]; intuition discriminate.
Defined.

Lemma known_nodes_marks_teacher_witness :
  well_formed [("0xA", node_A); ("0xB", node_B); ("0xC", node_C)]
  /\ @components.generate_node_table_components example_builtins example_maya node_A
     = Ok (rendered node_A)
  /\ @components.generate_node_table_components example_builtins example_maya node_B
     = Ok (rendered node_B)
  /\ @components.generate_node_table_components example_builtins example_maya node_C
     = Ok (rendered node_C)
  /\ (@components.known_nodes example_builtins example_maya
        [("0xA", node_A); ("0xB", node_B); ("0xC", node_C)] (Some "0xB")
      = Ok (nodes_page 3 [node_row (rendered node_A) false; node_row (rendered node_B) true;
                          node_row (rendered node_C) false])
      /\ map highlighted [node_row (rendered node_A) false; node_row (rendered node_B) true;
                          node_row (rendered node_C) false]
         = [false; true; false]).
Proof.
  split; [apply example_keys_distinct|].
  split; [reflexivity|]. split; [reflexivity|]. split; [reflexivity|].
  apply (@known_nodes_marks_teacher example_builtins example_maya
           "0xA" "0xB" "0xC" node_A node_B node_C
           (rendered node_A) (rendered node_B) (rendered node_C)).
  - apply example_keys_distinct.
  - reflexivity.
  - reflexivity.
  - reflexivity.
Defined.

Lemma example_dict_renders :
  forall kv, In kv [("0xA", node_A); ("0xB", VDict []); ("0xC", node_C)] ->
             @truthy example_builtins (snd kv) = true ->
             exists c, @components.generate_node_table_components
                         example_builtins example_maya (snd kv) = Ok c.
Proof.
  intros kv [<-|[<-|[<-|[]]]] Htruthy; cbn [snd] in *.
  - exists (rendered node_A). reflexivity.
  - discriminate.
  - exists (rendered node_C). reflexivity.
Defined.

Lemma known_nodes_rows_and_count_witness :
  well_formed [("0xA", node_A); ("0xB", VDict []); ("0xC", node_C)]
  /\ (forall kv, In kv [("0xA", node_A); ("0xB", VDict []); ("0xC", node_C)] ->
                 @truthy example_builtins (snd kv) = true ->
                 exists c, @components.generate_node_table_components
                             example_builtins example_maya (snd kv) = Ok c)
  /\ exists rows,
      @components.known_nodes example_builtins example_maya
        [("0xA", node_A); ("0xB", VDict []); ("0xC", node_C)] (Some "0xB")
      = Ok (nodes_page 3 rows)
      /\ List.length rows = 2
      /\ Forall (fun row => highlighted row = false) rows.
Proof.
  split; [apply example_keys_distinct|]. split; [apply example_dict_renders|].
  destruct (@known_nodes_rows_and_count example_builtins example_maya
              [("0xA", node_A); ("0xB", VDict []); ("0xC", node_C)] (Some "0xB")
              (example_keys_distinct _ _ _) example_dict_renders)
    as (rows & Hpage & _ & Hlen & _ & Hteacher).
  exists rows. split; [exact Hpage|]. split.
  - cbn in Hlen. lia.
  - apply (Hteacher "0xB" (VDict [])); reflexivity.
Defined.

Lemma unparseable_last_seen_is_shown_raw_witness :
  is_node node_C = true
  /\ @components.from_rfc3339 example_maya (field "last_seen" node_C) = Raise ParserError
  /\ @components.generate_node_table_components example_builtins example_maya node_C
     = Ok (@components_of example_builtins node_C (VStr "yesterday, probably")).
Proof.
  split; [reflexivity|]. split; [reflexivity|].
  apply (@unparseable_last_seen_is_shown_raw example_builtins example_maya node_C);
    reflexivity.
Defined.

(** C7 as stated fails: the text [P1D] is no timestamp, the parser leaves
    it with an exception that is not [ParserError], and the whole call
    raises instead of showing the raw text. *)
Lemma duration_last_seen_raises :
  is_node node_D = true
  /\ field "last_seen" node_D = VStr "P1D"
  /\ @components.from_rfc3339 duration_maya (field "last_seen" node_D) = Raise TypeError
  /\ @components.generate_node_table_components example_builtins duration_maya node_D
     = Raise TypeError
  /\ forall c,
      @components.generate_node_table_components example_builtins duration_maya node_D
      <> Ok c.
Proof. repeat split. discriminate. Qed.

(** ** Further properties of the components *)

Lemma traverse_from_nth {A B} (f : nat -> A -> result B) (xs : list A) :
  forall idx ys,
    traverse_from f idx xs = Ok ys ->
    List.length ys = List.length xs
    /\ forall i y, nth_error ys i = Some y ->
                   exists x, nth_error xs i = Some x /\ f (idx + i) x = Ok y.
Proof.
  induction xs as [|x xs IH]; intros idx ys; cbn [traverse_from].
  - intros [= <-]. split; [reflexivity|]. intros [|i] y; discriminate.
  - destruct (f idx x) as [y0|e] eqn:Ey; cbn [bind]; [|discriminate].
    destruct (traverse_from f (S idx) xs) as [ys'|e] eqn:Eys; cbn [bind]; [|discriminate].
    intros [= <-]. destruct (IH (S idx) ys' Eys) as [Hlen Hnth].
    split; [cbn [List.length]; now rewrite Hlen|].
    intros [|i] y; cbn [nth_error].
    + intros [= <-]. exists x. rewrite Nat.add_0_r. now split.
    + intros Hy. destruct (Hnth i y Hy) as (x' & Hx' & Hf).
      exists x'. split; [assumption|]. now rewrite Nat.add_succ_r.
Qed.

Section further_component_facts.
Context `{Builtins} `{components.Maya}.
Import components.

Ltac open_bind :=
  match goal with
  | |- context [bind ?c _] =>
      let E := fresh "E" in destruct c eqn:E; cbn [bind]; try discriminate
  end.

(** X1: [state_detail] raises [TypeError] on anything but a dict, raises
    the [KeyError] of the first of symbol, color_hex, nickname, updated
    that the dict lacks, and otherwise returns the detail built from the
    four fields. *)
Theorem state_detail_outcome (state : pyval) (current_state : bool) :
  state_detail state current_state
  = match state with
    | VDict d =>
        match first_missing ["symbol"; "color_hex"; "nickname"; "updated"] d with
        | Some key => Raise (KeyError key)
        | None =>
            Ok (detail_of (field "symbol" state) (field "color_hex" state)
                          (field "nickname" state) (field "updated" state) current_state)
        end
    | _ => Raise TypeError
    end.
Proof.
  destruct state as [| | | | | |d|]; try reflexivity.
  unfold state_detail, field, subscript, getitem. cbn [first_missing].
  destruct (get "symbol" d); cbn [bind]; [|reflexivity].
  destruct (get "color_hex" d); cbn [bind]; [|reflexivity].
  destruct (get "nickname" d); cbn [bind]; [|reflexivity].
  destruct (get "updated" d); cbn [bind]; [|reflexivity].
  destruct current_state; reflexivity.
Qed.

Lemma state_detail_ok_is_state (state : pyval) (current_state : bool) (detail : html) :
  state_detail state current_state = Ok detail -> is_state state = true.
Proof.
  destruct state as [| | | | | |d|]; try discriminate.
  unfold state_detail, subscript, getitem. cbn [is_state].
  destruct (get "symbol" d); cbn [bind]; [|discriminate].
  destruct (get "color_hex" d); cbn [bind]; [|discriminate].
  destruct (get "nickname" d); cbn [bind]; [|discriminate].
  destruct (get "updated" d); cbn [bind]; [|discriminate].
  reflexivity.
Qed.

Lemma states_traverse_ok (states : list pyval) :
  forall idx,
    forallb is_state states = true ->
    exists details,
      traverse_from (fun i x => state_detail x (Nat.eqb i 0)) idx states = Ok details.
Proof.
  induction states as [|x states IH]; intros idx Hall; cbn [traverse_from].
  - now exists [].
  - cbn [forallb] in Hall. apply andb_true_iff in Hall as [Hx Hrest].
    destruct (state_detail_ok x (Nat.eqb idx 0) Hx) as (s & c & n & u & ->).
    destruct (IH (S idx) Hrest) as [details ->]. cbn [bind]. eauto.
Qed.

Lemma states_traverse_inv (states : list pyval) :
  forall idx details,
    traverse_from (fun i x => state_detail x (Nat.eqb i 0)) idx states = Ok details ->
    forallb is_state states = true.
Proof.
  induction states as [|x states IH]; intros idx details; cbn [traverse_from forallb].
  - reflexivity.
  - destruct (state_detail x (Nat.eqb idx 0)) as [d|e] eqn:Ed; cbn [bind]; [|discriminate].
    destruct (traverse_from _ (S idx) states) as [ds|e] eqn:Eds; cbn [bind]; [|discriminate].
    intros _. rewrite (state_detail_ok_is_state x _ d Ed), (IH (S idx) ds Eds). reflexivity.
Qed.

(** X2: [previous_states] returns exactly when every element of the list
    is a dict with the four state fields (the empty list included), and
    then the row has one cell per state; any other list makes it raise. *)
Theorem previous_states_returns_iff (states : list pyval) :
  (exists details,
      previous_states states = Ok (states_page details)
      /\ List.length details = List.length states)
  <-> forallb is_state states = true.
Proof.
  rewrite previous_states_traverse. split.
  - intros (details & Hpage & _).
    destruct (traverse_from _ 0 states) as [ds|e] eqn:Eds; cbn [bind] in Hpage;
      [|discriminate].
    now apply (states_traverse_inv states 0 ds).
  - intros Hall. destruct (states_traverse_ok states 0 Hall) as [details Hd].
    exists details. rewrite Hd. split; [reflexivity|].
    apply (traverse_from_nth _ states 0 details Hd).
Qed.

(** What [generate_node_table_components] does with a node record, by the
    outcome of the timestamp parser. *)
Lemma generate_node_table_components_run (node_info : pyval) :
  is_node node_info = true ->
  generate_node_table_components node_info
  = match from_rfc3339 (field "last_seen" node_info) with
    | Ok dt => Ok (components_of node_info (VStr (slang_time dt)))
    | Raise ParserError => Ok (components_of node_info (field "last_seen" node_info))
    | Raise e => Raise e
    end.
Proof.
  intros Hnode. unfold is_node in Hnode. unfold components_of, field.
  repeat match type of Hnode with
         | context [match ?x with _ => _ end] => destruct x eqn:?; try discriminate
         end.
  unfold generate_node_table_components, generate_node_status_icon.
  repeat match goal with
         | E : _ = Ok _ |- _ => rewrite E; cbn [bind]
         end.
  destruct (from_rfc3339 _) as [dt|e]; cbn [bind].
  - repeat match goal with
           | E : _ = Ok _ |- _ => rewrite E; cbn [bind]
           end.
    destruct (is_not_unknown_fleet_state _); reflexivity.
  - destruct e; cbn [bind];
      repeat match goal with
             | E : _ = Ok _ |- _ => rewrite E; cbn [bind]
             end;
      destruct (is_not_unknown_fleet_state _); reflexivity.
Qed.

Ltac cannot_render :=
  let Hgen := fresh "Hgen" in
  intros Hgen; exfalso; revert Hgen;
  unfold generate_node_table_components, generate_node_status_icon;
  repeat first
    [ progress (repeat match goal with
                       | E : _ = Ok _ |- _ => rewrite E
                       | E : _ = Raise _ |- _ => rewrite E
                       end; cbn [bind])
    | match goal with
      | |- context [match ?e with ParserError => _ | _ => _ end] => is_var e; destruct e
      end
    | open_bind ];
  try discriminate.

Lemma rendered_is_node (node_info : pyval) (c : list (string * html)) :
  generate_node_table_components node_info = Ok c -> is_node node_info = true.
Proof.
  unfold is_node.
  destruct (subscript node_info "nickname") eqn:?; [|cannot_render].
  destruct (subscript node_info "rest_url") eqn:?; [|cannot_render].
  destruct (subscript node_info "fleet_state_icon") eqn:?; [|cannot_render].
  destruct (subscript node_info "staker_address") as [address|] eqn:?; [|cannot_render].
  destruct (subscript node_info "last_seen") eqn:?; [|cannot_render].
  destruct (subscript node_info "status") as [status|] eqn:?; [|cannot_render].
  destruct (subscript node_info "timestamp") eqn:?; [|cannot_render].
  destruct (slice_to 10 address) eqn:?; [|cannot_render].
  destruct (subscript status "status") eqn:?; [|cannot_render].
  destruct (subscript status "color") eqn:?; [|cannot_render].
  reflexivity.
Qed.

(** X3: when the parser accepts [last_seen], the Last Seen cell shows the
    slang time of the parsed timestamp and the other five cells are built
    from the record's fields. *)
Theorem parsed_last_seen_shows_slang_time (node_info : pyval) (dt : MayaDT) :
  is_node node_info = true ->
  from_rfc3339 (field "last_seen" node_info) = Ok dt ->
  generate_node_table_components node_info
  = Ok (components_of node_info (VStr (slang_time dt))).
Proof.
  intros Hnode Hparse.
  now rewrite (generate_node_table_components_run node_info Hnode), Hparse.
Qed.

(** X4: the [except] clause catches [ParserError] only: any other
    exception of the parser leaves [generate_node_table_components]. *)
Theorem other_parser_errors_propagate (node_info : pyval) (e : exn) :
  is_node node_info = true ->
  from_rfc3339 (field "last_seen" node_info) = Raise e ->
  e <> ParserError ->
  generate_node_table_components node_info = Raise e.
Proof.
  intros Hnode Hparse Hother.
  rewrite (generate_node_table_components_run node_info Hnode), Hparse.
  destruct e; try reflexivity. contradiction.
Qed.

(** X5: [generate_node_table_components] returns exactly for node records
    whose [last_seen] the parser accepts or rejects with [ParserError]; a
    missing field, a status without message or colour, an address that
    cannot be sliced or another parser exception makes it raise. *)
Theorem generate_node_table_components_returns_iff (node_info : pyval) :
  (exists c, generate_node_table_components node_info = Ok c)
  <-> (is_node node_info = true
       /\ forall e, from_rfc3339 (field "last_seen" node_info) = Raise e -> e = ParserError).
Proof.
  split.
  - intros [c Hc]. pose proof (rendered_is_node node_info c Hc) as Hnode.
    split; [exact Hnode|]. intros e Hparse.
    rewrite (generate_node_table_components_run node_info Hnode), Hparse in Hc.
    destruct e; try discriminate. reflexivity.
  - intros [Hnode Hparse].
    rewrite (generate_node_table_components_run node_info Hnode).
    destruct (from_rfc3339 (field "last_seen" node_info)) as [dt|e]; [eauto|].
    rewrite (Hparse e eq_refl). eauto.
Qed.

(** X6: for a textual staker address the Checksum cell shows its first ten
    characters followed by three dots and links to the full address on
    Etherscan; for a textual [rest_url] the Nickname cell links to the
    node's status page. *)
Theorem checksum_and_nickname_links (node_info : pyval) (c : list (string * html))
        (address url : string) :
  generate_node_table_components node_info = Ok c ->
  subscript node_info "staker_address" = Ok (VStr address) ->
  subscript node_info "rest_url" = Ok (VStr url) ->
  getitem c "Checksum"
  = Ok (Elem "Td"
             (Elem "A" (Raw (VStr (substring 0 10 address ++ "...")))
                   [("href", VStr ("https://goerli.etherscan.io/address/" ++ address));
                    ("target", VStr "_blank")])
             [])
  /\ getitem c "Nickname"
     = Ok (Elem "Td"
                (Elem "Div"
                      (Seq [Elem "A" (Raw (field "nickname" node_info))
                                 [("href", VStr ("https://" ++ url ++ "/status"));
                                  ("target", VStr "_blank")]])
                      [])
                []).
Proof.
  intros Hc Haddress Hurl.
  pose proof (rendered_is_node node_info c Hc) as Hnode.
  rewrite (generate_node_table_components_run node_info Hnode) in Hc.
  assert (Hshape : exists shown, c = components_of node_info shown).
  { destruct (from_rfc3339 (field "last_seen" node_info)) as [dt|e].
    - injection Hc as <-. eauto.
    - destruct e; try discriminate. injection Hc as <-. eauto. }
  destruct Hshape as [shown ->].
  unfold components_of, getitem, field. cbn [get String.eqb Ascii.eqb Bool.eqb].
  rewrite Haddress, Hurl. cbn [slice_to py_str]. split; reflexivity.
Qed.

(** X7: whatever [generate_node_table_components] returns has exactly the
    six columns of the table, in the table's order, so the lookup of a
    column in [nodes_table] never raises. *)
Theorem components_have_the_six_columns (node_info : pyval) (c : list (string * html)) :
  generate_node_table_components node_info = Ok c ->
  keys c = NODE_TABLE_COLUMNS
  /\ forall col, In col NODE_TABLE_COLUMNS -> exists cell, getitem c col = Ok cell.
Proof.
  intros Hc. pose proof (generate_node_table_components_keys node_info c Hc) as Hkeys.
  split; [exact Hkeys|].
  unfold keys, NODE_TABLE_COLUMNS in *.
  do 7 (destruct c as [|[? ?] c]; try discriminate).
  cbn [map fst] in Hkeys. injection Hkeys as -> -> -> -> -> ->.
  intros col [<-|[<-|[<-|[<-|[<-|[<-|[]]]]]]]; eexists; reflexivity.
Qed.

(** X8: [nodes_table] renders one row per node below the header, in order,
    and highlights the row at position i exactly when i is the teacher
    index: no row for [None] or for an index past the end. *)
Theorem nodes_table_highlights_by_index (nodes : list pyval) (teacher_index : option nat)
        (table : html) :
  nodes_table nodes teacher_index = Ok table ->
  List.length (table_rows table) = List.length nodes
  /\ forall i row, nth_error (table_rows table) i = Some row ->
                   highlighted row = teacher_at i teacher_index.
Proof.
  rewrite nodes_table_traverse.
  destruct (traverse_from _ 0 nodes) as [rows|e] eqn:Erows; cbn [bind]; [|discriminate].
  intros [= <-]. change (table_rows (node_table_of rows)) with rows.
  destruct (traverse_from_nth _ nodes 0 rows Erows) as [Hlen Hnth].
  split; [exact Hlen|].
  intros i row Hrow. destruct (Hnth i row Hrow) as (node & _ & Hnode).
  cbn [Nat.add] in Hnode.
  destruct (generate_node_table_components node) as [c|e]; cbn [bind] in Hnode;
    [|discriminate].
  injection Hnode as <-. apply highlighted_node_row.
Qed.

Lemma live_nil (d : list (string * pyval)) :
  (forall kv, In kv d -> truthy (snd kv) = false) -> live d = [].
Proof.
  unfold live. induction d as [|kv d IH]; intros Hfalsy; cbn [filter]; [reflexivity|].
  rewrite (Hfalsy kv (or_introl eq_refl)). apply IH.
  intros kv' Hin. apply Hfalsy. now right.
Qed.

(** X9: entries with falsy values are never rendered, whatever they are: a
    dict without a truthy value, the empty dict included, gives a table
    with the header only, while the heading still counts every key. *)
Theorem known_nodes_nothing_truthy (nodes_dict : list (string * pyval))
        (teacher_checksum : option string) :
  well_formed nodes_dict ->
  (forall kv, In kv nodes_dict -> truthy (snd kv) = false) ->
  known_nodes nodes_dict teacher_checksum
  = Ok (nodes_page (List.length nodes_dict) []).
Proof.
  intros Hwf Hfalsy. pose proof (live_nil nodes_dict Hfalsy) as Hlive.
  destruct (known_nodes_rows nodes_dict teacher_checksum Hwf) as (rows & Hpage & Hrows).
  { rewrite Hlive. intros kv []. }
  rewrite Hlive in Hrows. inversion Hrows; subst. exact Hpage.
Qed.

Lemma traverse_from_each {A B} (f : nat -> A -> result B) (xs : list A) :
  forall idx ys,
    traverse_from f idx xs = Ok ys ->
    forall x, In x xs -> exists i y, f i x = Ok y.
Proof.
  induction xs as [|x0 xs IH]; intros idx ys; cbn [traverse_from]; [intros _ x []|].
  destruct (f idx x0) as [y0|e] eqn:Ey; cbn [bind]; [|discriminate].
  destruct (traverse_from f (S idx) xs) as [ys'|e] eqn:Eys; cbn [bind]; [|discriminate].
  intros _ x [<-|Hin]; [eauto|]. exact (IH (S idx) ys' Eys x Hin).
Qed.

(** X10: on a dict with distinct keys [known_nodes] returns exactly when
    every truthy value renders; one truthy value that is not a node record
    makes the whole widget raise. *)
Theorem known_nodes_returns_iff (nodes_dict : list (string * pyval))
        (teacher_checksum : option string) :
  well_formed nodes_dict ->
  ((exists page, known_nodes nodes_dict teacher_checksum = Ok page)
   <-> forall kv, In kv nodes_dict -> truthy (snd kv) = true ->
                  exists c, generate_node_table_components (snd kv) = Ok c).
Proof.
  intros Hwf. split.
  - intros [page Hpage] kv Hin Htruthy.
    unfold known_nodes in Hpage.
    rewrite (collect_nodes_live nodes_dict teacher_checksum Hwf) in Hpage.
    cbn [bind] in Hpage. rewrite nodes_table_traverse in Hpage.
    destruct (traverse_from _ 0 (map snd (live nodes_dict))) as [rows|e] eqn:Erows;
      cbn [bind] in Hpage; [|discriminate].
    destruct (traverse_from_each _ _ 0 rows Erows (snd kv)) as (i & row & Hrow).
    { apply in_map. apply filter_In. now split. }
    destruct (generate_node_table_components (snd kv)) as [c|e]; [eauto|discriminate].
  - intros Hok.
    destruct (known_nodes_rows nodes_dict teacher_checksum Hwf) as (rows & Hpage & _).
    { intros kv Hin. apply filter_In in Hin as [Hin Htruthy]. now apply Hok. }
    eauto.
Qed.

Lemma highlighted_rows_count (flag : string -> bool) (l : list (string * pyval))
      (rows : list html) :
  Forall2 (fun kv row =>
             exists c, generate_node_table_components (snd kv) = Ok c
                       /\ row = node_row c (flag (fst kv)))
          l rows ->
  List.length (filter highlighted rows)
  = List.length (filter (fun kv => flag (fst kv)) l).
Proof.
  induction 1 as [|kv row l rows (c & _ & ->) _ IH]; [reflexivity|].
  cbn [filter]. rewrite highlighted_node_row.
  destruct (flag (fst kv)); cbn [List.length]; now rewrite IH.
Qed.

Lemma key_matches_none (t : string) (l : list (string * pyval)) :
  ~ In t (keys l) -> filter (fun kv => String.eqb (fst kv) t) l = [].
Proof.
  induction l as [|[k v] l IH]; intros Hnotin; cbn [filter fst]; [reflexivity|].
  destruct (String.eqb_spec k t) as [->|_].
  - exfalso. apply Hnotin. now left.
  - apply IH. intros Hin. apply Hnotin. now right.
Qed.

Lemma live_teacher_count (t : string) (d : list (string * pyval)) :
  well_formed d ->
  List.length (filter (fun kv => String.eqb (fst kv) t) (live d))
  = if teacher_rendered d (Some t) then 1 else 0.
Proof.
  unfold teacher_rendered.
  induction d as [|[k v] d IH]; intros Hwf; [reflexivity|].
  inversion Hwf as [|? ? Hnotin Hwf']; subst.
  cbn [get]. unfold live. cbn [filter snd]. fold (live d).
  destruct (String.eqb_spec t k) as [->|Hneq].
  - assert (Hnone : filter (fun kv => String.eqb (fst kv) k) (live d) = []).
    { apply key_matches_none. intros Hin. apply Hnotin. now apply keys_live_incl. }
    destruct (truthy v); cbn [filter fst].
    + now rewrite String.eqb_refl, Hnone.
    + now rewrite Hnone.
  - assert (Hkt : String.eqb k t = false) by (apply String.eqb_neq; congruence).
    destruct (truthy v); cbn [filter fst]; [rewrite Hkt|]; now apply IH.
Qed.

(** X11: [known_nodes] highlights exactly one row when the teacher's
    checksum is a key with a truthy value, and none otherwise: not for the
    default [None], not for a checksum the dict does not have. *)
Theorem known_nodes_highlights_teacher_once (nodes_dict : list (string * pyval))
        (teacher_checksum : option string) :
  well_formed nodes_dict ->
  (forall kv, In kv nodes_dict -> truthy (snd kv) = true ->
              exists c, generate_node_table_components (snd kv) = Ok c) ->
  exists rows,
    known_nodes nodes_dict teacher_checksum = Ok (nodes_page (List.length nodes_dict) rows)
    /\ List.length (filter highlighted rows)
       = if teacher_rendered nodes_dict teacher_checksum then 1 else 0.
Proof.
  intros Hwf Hok.
  destruct (known_nodes_rows nodes_dict teacher_checksum Hwf) as (rows & Hpage & Hrows).
  { intros kv Hin. apply filter_In in Hin as [Hin Htruthy]. now apply Hok. }
  exists rows. split; [exact Hpage|].
  rewrite (highlighted_rows_count _ _ _ Hrows).
  destruct teacher_checksum as [t|].
  - exact (live_teacher_count t nodes_dict Hwf).
  - cbn [is_teacher teacher_rendered]. clear Hrows.
    induction (live nodes_dict) as [|kv l IH]; [reflexivity|exact IH].
Qed.
End further_component_facts.

(** ** The cached snapshot and the fetches behind it *)

Section dashboard_facts.
Context `{Builtins} `{components.Maya} `{dashboard.Json} `{dashboard.Requests}
        `{dashboard.CrawlerConstants} `{dashboard.Nucypher}.
Import dashboard.

Lemma make_request_run (self : Dashboard) (w : World) :
  make_request self w = (next_fetch self w, sent w).
Proof.
  unfold make_request, next_fetch, mbind, requests_get, lift, ret.
  fold (metrics_url self). fold (sent w).
  destruct (crawler w (metrics_url self) (n_requests w)) as [response|e]; cbn [bind];
    [|reflexivity].
  destruct (Response_json response); reflexivity.
Qed.

Lemma verify_cold (self : Dashboard) (w : World) :
  verify_cached_stats self None w = (next_fetch self w, sent w).
Proof. apply make_request_run. Qed.

Lemma update_cached_stats_run (self : Dashboard) (n_intervals : Z) (w : World) :
  update_cached_stats self n_intervals w
  = (let* payload := next_fetch self w in Ok (json_dumps payload), sent w).
Proof.
  unfold update_cached_stats, mbind. rewrite make_request_run.
  destruct (next_fetch self w); reflexivity.
Qed.

(** C1 (amended): on a cold start [verify_cached_stats] issues exactly one
    GET and hands its caller what that fetch gave, but stores nothing: the
    cached snapshot, the log and the chain are as before. *)
Theorem cold_read_fetches_without_storing (self : Dashboard) (w : World) :
  fst (verify_cached_stats self None w) = next_fetch self w
  /\ n_requests (snd (verify_cached_stats self None w)) = S (n_requests w)
  /\ cached_crawler_stats (snd (verify_cached_stats self None w)) = cached_crawler_stats w.
Proof. rewrite verify_cold. repeat split. Qed.

Lemma state_run (self : Dashboard) (n : Z) (latest : option json_text) (w : World) :
  state self n latest w
  = (let* data := fst (verify_cached_stats self latest w) in states_widget data,
     snd (verify_cached_stats self latest w)).
Proof.
  unfold state, states_widget, mbind, lift.
  destruct (verify_cached_stats self latest w) as [[data|e] w']; cbn [fst snd bind];
    [|reflexivity].
  destruct (subscript data "prev_states") as [states|e]; cbn [bind]; [|reflexivity].
  destruct (py_iter states); reflexivity.
Qed.

Lemma current_period_run (self : Dashboard) (n : Z) (latest : option json_text) (w : World) :
  current_period self n latest w
  = (let* data := fst (verify_cached_stats self latest w) in period_widget data,
     snd (verify_cached_stats self latest w)).
Proof.
  unfold current_period, period_widget, mbind, lift, ret.
  destruct (verify_cached_stats self latest w) as [[data|e] w']; cbn [fst snd bind];
    [|reflexivity].
  destruct (subscript data "current_period"); reflexivity.
Qed.

(** C6 (amended): every first-time request runs a fetch of its own, so [k]
    of them issue [k] GETs. *)
Theorem cold_reads_fetch_each (self : Dashboard) (k : nat) (w : World) :
  n_requests (cold_reads self k w) = n_requests w + k
  /\ cached_crawler_stats (cold_reads self k w) = cached_crawler_stats w.
Proof.
  revert w. induction k as [|k IH]; intros w; cbn [cold_reads].
  - split; [lia|reflexivity].
  - rewrite verify_cold. cbn [snd]. destruct (IH (sent w)) as [-> ->].
    cbn [sent n_requests cached_crawler_stats]. split; [lia|reflexivity].
Qed.

(** *** The two endpoints *)

Lemma chain_only_ret {A} (a : A) : chain_only (ret a).
Proof. intros w. split; reflexivity. Qed.

Lemma chain_only_lift {A} (r : result A) : chain_only (lift r).
Proof. intros w. split; reflexivity. Qed.

Lemma chain_only_call {A} (q : Chain -> result A) : chain_only (call q).
Proof. intros w. split; [reflexivity|]. intros w' Hchain. unfold call. cbn. now rewrite Hchain. Qed.

Lemma chain_only_bind {A B} (c : M A) (k : A -> M B) :
  chain_only c -> (forall a, chain_only (k a)) -> chain_only (mbind c k).
Proof.
  intros Hc Hk w. destruct (Hc w) as [Hw Hfst]. unfold mbind. split.
  - destruct (c w) as [[a|e] w1] eqn:Ecw; cbn [snd] in *; subst w1; [|reflexivity].
    apply (Hk a w).
  - intros w' Hchain. destruct (Hc w') as [Hw' _].
    specialize (Hfst w' Hchain).
    destruct (c w') as [r' w1'], (c w) as [r w1]. cbn [fst snd] in *. subst.
    destruct r as [a|e]; [|reflexivity].
    now apply (Hk a w).
Qed.

Lemma staker_information_chain_only (self : Dashboard) (staker_address : string) :
  chain_only (staker_information self staker_address).
Proof.
  unfold staker_information.
  repeat (first [apply chain_only_ret | apply chain_only_lift | apply chain_only_call
                | apply chain_only_bind; [|intros ?]]).
Qed.

(** C8: neither endpoint reads or writes the cached snapshot: each leaves
    the whole world, the snapshot included, as it found it, and its answer
    is the same in any two worlds that agree on the chain. *)
Theorem endpoints_bypass_the_snapshot (self : Dashboard) (staker_address : string)
        (w w' : World) :
  chain w' = chain w ->
  snd (supply_information (economics self) w) = w
  /\ snd (staker_information self staker_address w) = w
  /\ fst (supply_information (economics self) w') = fst (supply_information (economics self) w)
  /\ fst (staker_information self staker_address w')
     = fst (staker_information self staker_address w)
  /\ forall v,
      cached_crawler_stats (snd (supply_information (economics self)
                                   (set_cached_crawler_stats v w))) = v
      /\ cached_crawler_stats (snd (staker_information self staker_address
                                      (set_cached_crawler_stats v w))) = v.
Proof.
  intros Hchain.
  pose proof (staker_information_chain_only self staker_address) as Hstaker.
  repeat split.
  - apply (Hstaker w).
  - now apply (Hstaker w).
  - now rewrite (proj1 (Hstaker (set_cached_crawler_stats v w))).
Qed.

(** *** The supply figures *)

(** C4: with a total supply of 1,000,000 tokens and an initial supply of
    400,000 tokens, the endpoint reports the text of 600,000 tokens as
    [staking_rewards_supply], and as [est_circulating_supply] the text of
    the initial supply less 0.399, 0.106 and 0.2 of it. *)
Theorem supply_information_figures (w : World)
        (total_text initial_text rewards_text investors_text team_text company_text
           circulating_text : string) :
  nu_text (Int (tokens 1000000)) = Ok total_text ->
  nu_text (Int (tokens 400000)) = Ok initial_text ->
  nu_text (Int (tokens 600000)) = Ok rewards_text ->
  nu_text (Float (0.399 * initial_400k)) = Ok investors_text ->
  nu_text (Float (0.106 * initial_400k)) = Ok team_text ->
  nu_text (Float (0.2 * initial_400k)) = Ok company_text ->
  nu_text (Float (circulating initial_400k)) = Ok circulating_text ->
  float_of_int (tokens 400000) = Ok initial_400k
  /\ supply_information
       {| total_supply := tokens 1000000; initial_supply := tokens 400000 |} w
     = (Ok (jsonify
              (VDict [("total_supply", VStr total_text);
                      ("initial_supply", VStr initial_text);
                      ("staking_rewards_supply", VStr rewards_text);
                      ("internal_allocations",
                       VDict [("investors", VStr investors_text);
                              ("team", VStr team_text);
                              ("company", VStr company_text)]);
                      ("est_circulating_supply", VStr circulating_text)])),
        w).
Proof.
  intros Htotal Hinitial Hrewards Hinvestors Hteam Hcompany Hcirculating.
  assert (Hfloat : float_of_int (tokens 400000) = Ok initial_400k) by (vm_compute; reflexivity).
  split; [exact Hfloat|].
  unfold supply_information, lift. f_equal.
  cbn [total_supply initial_supply].
  rewrite Htotal, Hinitial. cbn [bind py_sub].
  change (tokens 1000000 - tokens 400000)%Z with (tokens 600000).
  rewrite Hrewards. cbn [bind py_add py_mul py_sub to_float].
  rewrite Hfloat. cbn [bind].
  change (0.319 + 0.08)%float with 0.399%float.
  rewrite Hinvestors, Hteam, Hcompany. cbn [bind py_sub to_float].
  fold (circulating initial_400k).
  rewrite Hcirculating. reflexivity.
Qed.
End dashboard_facts.

(** The reported circulating supply, as an exact number of NuNits, is
    within a ten-billionth of a token of 118,000 tokens. *)
Lemma circulating_400k_near_118000 :
  circulating initial_400k = 0x1.8fccaf619349cp+76%float
  /\ match Prim2SF (circulating initial_400k) with
     | S754_finite false m e => (Z.abs (Z.pos m * 2 ^ e - tokens 118000) < 10 ^ 8)%Z
     | _ => False
     end.
Proof. split; vm_compute; reflexivity. Qed.

(** ** Further properties of the dashboard *)

Section further_dashboard_facts.
Context `{Builtins} `{components.Maya} `{dashboard.Json} `{dashboard.Requests}
        `{dashboard.CrawlerConstants} `{dashboard.Nucypher}.
Import dashboard.

Lemma verify_world (self : Dashboard) (latest : option json_text) (w : World) :
  snd (verify_cached_stats self latest w)
  = match latest with
    | None => sent w
    | Some _ => w
    end.
Proof. destruct latest; [reflexivity|]. now rewrite verify_cold. Qed.

Lemma verify_outcome (self : Dashboard) (latest : option json_text) (w : World) :
  fst (verify_cached_stats self latest w)
  = match latest with
    | None => next_fetch self w
    | Some text => json_loads text
    end.
Proof. destruct latest; [reflexivity|]. now rewrite verify_cold. Qed.

Lemma active_stakers_run (self : Dashboard) (n : Z) (latest : option json_text) (w : World) :
  active_stakers self n latest w
  = (let* data := fst (verify_cached_stats self latest w) in activity_widget data,
     snd (verify_cached_stats self latest w)).
Proof.
  unfold active_stakers, activity_widget, mbind, lift, ret.
  destruct (verify_cached_stats self latest w) as [[data|e] w']; cbn [fst snd bind];
    [|reflexivity].
  destruct (subscript data "activity") as [activity|e]; cbn [bind]; [|reflexivity].
  destruct (subscript activity "active") as [confirmed|e]; cbn [bind]; [|reflexivity].
  destruct (subscript activity "pending") as [pending|e]; cbn [bind]; [|reflexivity].
  destruct (subscript activity "inactive") as [inactive|e]; cbn [bind]; [|reflexivity].
  destruct (py_plus confirmed pending) as [partial|e]; cbn [bind]; [|reflexivity].
  destruct (py_plus partial inactive); reflexivity.
Qed.

Lemma known_nodes_run (self : Dashboard) (latest : option json_text) (w : World) :
  known_nodes self latest w
  = (let* data := fst (verify_cached_stats self latest w) in
     let* nodes_dict := subscript data "node_details" in
     Raise TypeError,
     snd (verify_cached_stats self latest w)).
Proof.
  unfold known_nodes, mbind, lift.
  destruct (verify_cached_stats self latest w) as [[data|e] w']; cbn [fst snd bind];
    [|reflexivity].
  destruct (subscript data "node_details"); reflexivity.
Qed.

Lemma refresh_outcome_aux (self : Dashboard) (n_intervals : Z) (w : World) :
  n_requests (fire_request_interval self n_intervals w) = S (n_requests w)
  /\ cached_crawler_stats (fire_request_interval self n_intervals w)
     = match next_fetch self w with
       | Ok payload => Some (json_dumps payload)
       | Raise _ => cached_crawler_stats w
       end.
Proof.
  unfold fire_request_interval. rewrite update_cached_stats_run.
  destruct (next_fetch self w); cbn [bind]; split; reflexivity.
Qed.

Lemma serve_request_interval_run (self : Dashboard) (n_intervals : Z) (w : World) :
  serve_request_interval self n_intervals w
  = (fire_request_interval self n_intervals w,
     match next_fetch self w with
     | Ok _ => []
     | Raise e => [e]
     end).
Proof.
  unfold serve_request_interval, fire_request_interval.
  rewrite update_cached_stats_run.
  destruct (next_fetch self w); reflexivity.
Qed.

Lemma failed_refresh_page (self : Dashboard) (n_intervals : Z) (w : World) (e : exn) :
  next_fetch self w = Raise e ->
  fire_request_interval self n_intervals w = sent w.
Proof.
  intros Hfail. unfold fire_request_interval.
  now rewrite update_cached_stats_run, Hfail.
Qed.

(** C2: when the fetch of a refresh fails, with the exception of the
    transport or of the decoder, the callback ends in that exception; the
    dispatch writes it to the server's log and to nothing else, and the page
    keeps the snapshot it held. A consumer that runs afterwards is handed
    that snapshot: it reads it back without a fetch and shows what the
    snapshot gives, so the failure reaches none of them. *)
Theorem failed_refresh_is_logged_and_harmless (self : Dashboard) (n_intervals n : Z)
        (w : World) (e : exn) :
  next_fetch self w = Raise e ->
  let page := fst (serve_request_interval self n_intervals w) in
  fst (update_cached_stats self n_intervals w) = Raise e
  /\ snd (serve_request_interval self n_intervals w) = [e]
  /\ cached_crawler_stats page = cached_crawler_stats w
  /\ log page = log w
  /\ chain page = chain w
  /\ forall text,
      cached_crawler_stats w = Some text ->
      verify_cached_stats self (cached_crawler_stats page) page = (json_loads text, page)
      /\ state self n (cached_crawler_stats page) page
         = (let* data := json_loads text in states_widget data, page)
      /\ current_period self n (cached_crawler_stats page) page
         = (let* data := json_loads text in period_widget data, page)
      /\ active_stakers self n (cached_crawler_stats page) page
         = (let* data := json_loads text in activity_widget data, page).
Proof.
  intros Hfail page. subst page.
  rewrite serve_request_interval_run, (failed_refresh_page self n_intervals w e Hfail).
  rewrite update_cached_stats_run, Hfail. cbn [fst snd bind sent cached_crawler_stats log chain].
  repeat split; intros;
    rewrite ?state_run, ?current_period_run, ?active_stakers_run;
    match goal with
    | Htext : cached_crawler_stats w = Some _ |- _ => rewrite Htext
    end; reflexivity.
Qed.


(** X12: every refresh issues exactly one GET and touches neither the log
    nor the chain; when the fetch succeeds the page holds the dumped
    payload whatever it held before, and when it fails the page keeps what
    it held. *)
Theorem refresh_outcome (self : Dashboard) (n_intervals : Z) (w : World) :
  n_requests (fire_request_interval self n_intervals w) = S (n_requests w)
  /\ log (fire_request_interval self n_intervals w) = log w
  /\ chain (fire_request_interval self n_intervals w) = chain w
  /\ cached_crawler_stats (fire_request_interval self n_intervals w)
     = match next_fetch self w with
       | Ok payload => Some (json_dumps payload)
       | Raise _ => cached_crawler_stats w
       end.
Proof.
  unfold fire_request_interval. rewrite update_cached_stats_run.
  destruct (next_fetch self w); cbn [bind]; repeat split.
Qed.

(** X13: after a refresh that succeeded, with a codec that gives back the
    payload it dumped, the callbacks of the next trigger render that
    payload and none of them asks the crawler. *)
Theorem refresh_then_read (self : Dashboard) (m n : Z) (w : World) (payload : pyval) :
  next_fetch self w = Ok payload ->
  json_loads (json_dumps payload) = Ok payload ->
  fire_minute_interval self n (fire_request_interval self m w)
  = ((states_widget payload, period_widget payload), fire_request_interval self m w)
  /\ n_requests (snd (fire_minute_interval self n (fire_request_interval self m w)))
     = S (n_requests w).
Proof.
  intros Hfetch Hcodec.
  assert (Hstore : cached_crawler_stats (fire_request_interval self m w)
                   = Some (json_dumps payload)).
  { destruct (refresh_outcome_aux self m w) as [_ Hc]. now rewrite Hc, Hfetch. }
  assert (Hrun : fire_minute_interval self n (fire_request_interval self m w)
                 = ((states_widget payload, period_widget payload),
                    fire_request_interval self m w)).
  { unfold fire_minute_interval. rewrite Hstore, state_run, current_period_run.
    cbn [verify_cached_stats lift fst snd]. now rewrite Hcodec. }
  split; [exact Hrun|]. rewrite Hrun. cbn [snd].
  apply (refresh_outcome_aux self m w).
Qed.

(** X14: no consumer callback writes the cached snapshot, the log or the
    chain, and each issues one GET when it is handed no snapshot and none
    when it is handed one. *)
Theorem consumers_leave_the_store (self : Dashboard) (n : Z) (latest : option json_text)
        (w : World) :
  Forall (fun w' =>
            cached_crawler_stats w' = cached_crawler_stats w
            /\ log w' = log w
            /\ chain w' = chain w
            /\ n_requests w'
               = n_requests w + match latest with None => 1 | Some _ => 0 end)
         [snd (state self n latest w);
          snd (current_period self n latest w);
          snd (active_stakers self n latest w);
          snd (known_nodes self latest w)].
Proof.
  rewrite state_run, current_period_run, active_stakers_run, known_nodes_run.
  cbn [snd]. rewrite verify_world.
  destruct latest; repeat constructor; cbn [sent n_requests]; lia.
Qed.

(** X15: when a consumer is handed no snapshot and its own fetch fails,
    the exception of the fetch leaves the callback: there is no fallback
    value. *)
Theorem cold_fetch_failure_reaches_consumer (self : Dashboard) (n : Z) (w : World)
        (e : exn) :
  next_fetch self w = Raise e ->
  fst (state self n None w) = Raise e
  /\ fst (current_period self n None w) = Raise e
  /\ fst (active_stakers self n None w) = Raise e
  /\ fst (known_nodes self None w) = Raise e.
Proof.
  intros Hfail.
  rewrite state_run, current_period_run, active_stakers_run, known_nodes_run.
  cbn [fst]. rewrite verify_outcome, Hfail. repeat split.
Qed.

(** X16: a stored snapshot that does not decode makes the consumer raise
    the decoder's exception, and the crawler is not asked instead. *)
Theorem undecodable_snapshot_raises (self : Dashboard) (n : Z) (w : World)
        (text : json_text) (e : exn) :
  json_loads text = Raise e ->
  state self n (Some text) w = (Raise e, w)
  /\ current_period self n (Some text) w = (Raise e, w)
  /\ active_stakers self n (Some text) w = (Raise e, w).
Proof.
  intros Hfail.
  rewrite state_run, current_period_run, active_stakers_run.
  cbn [verify_cached_stats lift fst snd]. rewrite Hfail. repeat split.
Qed.

(** X17: with integer counts the Active Ursulas widget shows the active
    count over the sum of the active, pending and inactive counts. *)
Theorem active_stakers_shows_ratio (self : Dashboard) (n : Z) (latest : option json_text)
        (w : World) (data activity : pyval) (active pending inactive : Z) :
  fst (verify_cached_stats self latest w) = Ok data ->
  subscript data "activity" = Ok activity ->
  subscript activity "active" = Ok (VInt active) ->
  subscript activity "pending" = Ok (VInt pending) ->
  subscript activity "inactive" = Ok (VInt inactive) ->
  fst (active_stakers self n latest w)
  = Ok (ratio_widget (str_of_int active ++ "/"
                      ++ str_of_int (active + pending + inactive))).
Proof.
  intros Hdata Hactivity Hactive Hpending Hinactive.
  rewrite active_stakers_run. cbn [fst]. rewrite Hdata. cbn [bind].
  unfold activity_widget. rewrite Hactivity. cbn [bind].
  rewrite Hactive, Hpending, Hinactive. reflexivity.
Qed.

Ltac open_query :=
  match goal with
  | |- context [match ?x with Ok _ => _ | Raise _ => _ end] =>
      let E := fresh "E" in destruct x eqn:E; cbn [fst snd]; try discriminate
  end.

(** X19: whenever the staker endpoint answers, the answer has its twelve
    fields in a fixed order, repeats the address it was asked about, and
    reports as missed commitments the current period less the staker's
    last committed period. *)
Theorem staker_information_answer (self : Dashboard) (staker_address : string)
        (w : World) (body : list (string * pyval)) :
  fst (staker_information self staker_address w) = Ok (jsonify (VDict body)) ->
  keys body = STAKER_FIELDS
  /\ get "staker_address" body = Some (VStr staker_address)
  /\ exists staker current last,
      Staker_init (chain w) (registry self) staker_address = Ok staker
      /\ get_current_period (chain w) = Ok current
      /\ last_committed_period staker (chain w) = Ok last
      /\ get "missed_commitments" body = Some (VInt (current - last)).
Proof.
  unfold staker_information, mbind, call, lift, ret. cbn [fst snd].
  repeat open_query.
  intros [= <-]. split; [reflexivity|]. split; [reflexivity|].
  do 3 eexists. repeat split; eassumption || reflexivity.
Qed.

Ltac open_step :=
  match goal with
  | |- context [bind ?c _] =>
      let E := fresh "E" in destruct c eqn:E; cbn [bind]; try discriminate
  end.

(** X20: whenever the supply endpoint answers, for any economics, the
    answer has its five fields in a fixed order, the staking rewards are
    the text of the exact integer difference of total and initial supply,
    and the circulating supply is the text of the initial supply, as a
    float, less 0.399, 0.106 and 0.2 of it. *)
Theorem supply_information_answer (economics : BaseEconomics) (w : World)
        (body : list (string * pyval)) :
  fst (supply_information economics w) = Ok (jsonify (VDict body)) ->
  keys body = SUPPLY_FIELDS
  /\ (exists text,
         nu_text (Int (total_supply economics - initial_supply economics)) = Ok text
         /\ get "staking_rewards_supply" body = Some (VStr text))
  /\ exists initial text,
      float_of_int (initial_supply economics) = Ok initial
      /\ nu_text (Float (circulating initial)) = Ok text
      /\ get "est_circulating_supply" body = Some (VStr text).
Proof.
  unfold supply_information, lift. cbn [fst py_sub py_add py_mul to_float bind].
  do 3 open_step.
  destruct (float_of_int (initial_supply economics)) as [initial|e] eqn:Einitial;
    cbn [bind to_float py_sub]; [|discriminate].
  do 3 open_step. cbn [bind to_float py_sub].
  match goal with
  | |- context [bind ?c _] => destruct c as [text|e] eqn:Etext; cbn [bind]; [|discriminate]
  end.
  intros [= <-]. split; [reflexivity|]. split.
  - exists a1. split; reflexivity.
  - exists initial, text. split; [reflexivity|]. split; [exact Etext|reflexivity].
Qed.
End further_dashboard_facts.

(** ** The examples, run *)

#[local] Existing Instance example_builtins.
#[local] Existing Instance example_maya.
#[local] Existing Instance example_json.
#[local] Existing Instance example_requests.
#[local] Existing Instance example_crawler_constants.
#[local] Existing Instance example_nucypher.

(** C1 as stated fails: the cold read returns the payload it fetched and
    the page still has no snapshot. *)
Lemma cold_read_leaves_page_empty :
  fst (dashboard.verify_cached_stats example_dashboard None cold_world) = Ok (snapshot 1)
  /\ dashboard.cached_crawler_stats
       (snd (dashboard.verify_cached_stats example_dashboard None cold_world)) = None
  /\ dashboard.cached_crawler_stats
       (snd (dashboard.verify_cached_stats example_dashboard None cold_world))
     <> Some (dashboard.json_dumps (snapshot 1)).
Proof. repeat split. discriminate. Qed.

(** With the crawler down, the refresh of a page that holds the snapshot
    of period 7 is logged with the exception of the transport, and the
    widgets drawn afterwards are those of period 7. *)
Lemma failed_refresh_is_logged_and_harmless_witness :
  next_fetch example_dashboard crawler_down_world
  = Raise (RequestException "connection refused")
  /\ snd (dashboard.serve_request_interval example_dashboard 4 crawler_down_world)
     = [RequestException "connection refused"]
  /\ dashboard.cached_crawler_stats
       (fst (dashboard.serve_request_interval example_dashboard 4 crawler_down_world))
     = Some (snapshot 7)
  /\ fst (dashboard.current_period example_dashboard 1
            (dashboard.cached_crawler_stats
               (fst (dashboard.serve_request_interval example_dashboard 4 crawler_down_world)))
            (fst (dashboard.serve_request_interval example_dashboard 4 crawler_down_world)))
     = period_widget (snapshot 7).
Proof.
  split; [reflexivity|].
  destruct (failed_refresh_is_logged_and_harmless
              example_dashboard 4 1 crawler_down_world
              (RequestException "connection refused") eq_refl)
    as (_ & Hlogged & Hkept & _ & _ & Hreads).
  split; [exact Hlogged|]. split; [exact Hkept|].
  destruct (Hreads (snapshot 7) eq_refl) as (_ & _ & Hperiod & _).
  rewrite Hperiod. reflexivity.
Defined.

(** A refresh that succeeds is not logged, and one that fails on a body
    that is not JSON is logged with the exception of the decoder. *)
Lemma only_failed_refreshes_are_logged :
  snd (dashboard.serve_request_interval example_dashboard 4 warm_world) = []
  /\ snd (dashboard.serve_request_interval example_dashboard 4 crawler_garbled_world)
     = [JSONDecodeError]
  /\ dashboard.cached_crawler_stats
       (fst (dashboard.serve_request_interval example_dashboard 4 crawler_garbled_world))
     = Some (snapshot 7).
Proof. repeat split. Qed.



(** A refresh that succeeds between two consumers of one trigger ends the
    cycle: the first reads period 7 and the second period 8. *)
Lemma refresh_between_reads_changes_snapshot :
  quiet example_dashboard [Read; Refresh 4; Read] warm_world = false
  /\ fst (run example_dashboard [Read; Refresh 4; Read] warm_world)
     = [Ok (snapshot 7); Ok (snapshot 8)].
Proof. split; reflexivity. Qed.

(** C6 as stated fails: the two callbacks that one trigger runs on a cold
    page issue two GETs. *)
Lemma cold_trigger_fetches_twice :
  dashboard.n_requests cold_world = 0
  /\ dashboard.n_requests
       (snd (dashboard.fire_minute_interval example_dashboard 1 cold_world)) = 2
  /\ dashboard.n_requests (cold_reads example_dashboard 2 cold_world) = 2.
Proof. repeat split. Qed.

Lemma endpoints_bypass_the_snapshot_witness :
  dashboard.chain crawler_down_world = dashboard.chain cold_world
  /\ fst (dashboard.staker_information example_dashboard "0xA" crawler_down_world)
     = fst (dashboard.staker_information example_dashboard "0xA" cold_world)
  /\ snd (dashboard.staker_information example_dashboard "0xA" cold_world) = cold_world.
Proof.
  split; [reflexivity|].
  destruct (endpoints_bypass_the_snapshot example_dashboard "0xA"
              cold_world crawler_down_world eq_refl)
    as (_ & Hworld & _ & Hsame & _).
  split; [exact Hsame|exact Hworld].
Defined.

Lemma supply_information_figures_witness :
  dashboard.nu_text (Int (tokens 600000)) = Ok "600000000000000000000000 NuNit"
  /\ dashboard.nu_text (Float (circulating initial_400k)) = Ok "<float> NuNit"
  /\ fst (dashboard.supply_information (dashboard.economics example_dashboard) cold_world)
     = Ok (dashboard.jsonify
             (VDict [("total_supply", VStr "1000000000000000000000000 NuNit");
                     ("initial_supply", VStr "400000000000000000000000 NuNit");
                     ("staking_rewards_supply", VStr "600000000000000000000000 NuNit");
                     ("internal_allocations",
                      VDict [("investors", VStr "<float> NuNit");
                             ("team", VStr "<float> NuNit");
                             ("company", VStr "<float> NuNit")]);
                     ("est_circulating_supply", VStr "<float> NuNit")])).
Proof.
  split; [reflexivity|]. split; [reflexivity|].
  destruct (supply_information_figures cold_world
              "1000000000000000000000000 NuNit" "400000000000000000000000 NuNit"
              "600000000000000000000000 NuNit" "<float> NuNit" "<float> NuNit"
              "<float> NuNit" "<float> NuNit"
              eq_refl eq_refl eq_refl eq_refl eq_refl eq_refl eq_refl)
    as [_ Hsupply].
  change (dashboard.economics example_dashboard)
    with {| dashboard.total_supply := tokens 1000000;
            dashboard.initial_supply := tokens 400000 |}.
  now rewrite Hsupply.
Defined.

(** ** The further examples, run *)

Lemma parsed_last_seen_shows_slang_time_witness :
  is_node node_A = true
  /\ @components.from_rfc3339 example_maya (field "last_seen" node_A)
     = @Ok string "2020-06-01T10:00:00Z"
  /\ components.generate_node_table_components node_A
     = Ok (components_of node_A (VStr "moments ago")).
Proof.
  split; [reflexivity|]. split; [reflexivity|].
  apply (@parsed_last_seen_shows_slang_time example_builtins example_maya node_A
           ("2020-06-01T10:00:00Z" : string));
    reflexivity.
Defined.

Lemma other_parser_errors_propagate_witness :
  is_node node_A = true
  /\ @components.from_rfc3339 overflowing_maya (field "last_seen" node_A)
     = Raise OverflowError
  /\ OverflowError <> ParserError
  /\ @components.generate_node_table_components example_builtins overflowing_maya node_A
     = Raise OverflowError.
Proof.
  split; [reflexivity|]. split; [reflexivity|]. split; [discriminate|].
  apply (@other_parser_errors_propagate example_builtins overflowing_maya
           node_A OverflowError); [reflexivity|reflexivity|discriminate].
Defined.

Lemma checksum_and_nickname_links_witness :
  components.generate_node_table_components node_A = Ok (rendered node_A)
  /\ subscript node_A "staker_address"
     = Ok (VStr "0xAAAAAAAAAAAAAAAAAAAAAAAAAAAAAAAAAAAAAAAA")
  /\ subscript node_A "rest_url" = Ok (VStr "10.0.0.7:9151")
  /\ getitem (rendered node_A) "Checksum"
     = Ok (Elem "Td"
                (Elem "A" (Raw (VStr "0xAAAAAAAA..."))
                      [("href",
                        VStr "https://goerli.etherscan.io/address/0xAAAAAAAAAAAAAAAAAAAAAAAAAAAAAAAAAAAAAAAA");
                       ("target", VStr "_blank")])
                []).
Proof.
  split; [reflexivity|]. split; [reflexivity|]. split; [reflexivity|].
  apply (checksum_and_nickname_links node_A (rendered node_A)
           "0xAAAAAAAAAAAAAAAAAAAAAAAAAAAAAAAAAAAAAAAA" "10.0.0.7:9151");
    reflexivity.
Defined.

Lemma components_have_the_six_columns_witness :
  components.generate_node_table_components node_C = Ok (rendered node_C)
  /\ keys (rendered node_C) = components.NODE_TABLE_COLUMNS.
Proof.
  split; [reflexivity|].
  apply (components_have_the_six_columns node_C (rendered node_C)). reflexivity.
Defined.

Lemma nodes_table_highlights_by_index_witness :
  components.nodes_table [node_A; node_B] (Some 1)
  = Ok (node_table_of [node_row (rendered node_A) false; node_row (rendered node_B) true])
  /\ List.length
       (table_rows
          (node_table_of [node_row (rendered node_A) false; node_row (rendered node_B) true]))
     = 2.
Proof.
  split; [reflexivity|].
  apply (nodes_table_highlights_by_index [node_A; node_B] (Some 1)
           (node_table_of [node_row (rendered node_A) false;
                           node_row (rendered node_B) true])).
  reflexivity.
Defined.

Lemma two_keys_distinct (v1 v2 : pyval) : well_formed [("0xA", v1); ("0xB", v2)].
Proof.
  unfold well_formed. cbn [keys map fst].
  repeat constructor; cbn [In]; intuition discriminate.
Defined.

Lemma known_nodes_nothing_truthy_witness :
  well_formed [("0xA", VNone); ("0xB", VDict [])]
  /\ (forall kv, In kv [("0xA", VNone); ("0xB", VDict [])] -> truthy (snd kv) = false)
  /\ components.known_nodes [("0xA", VNone); ("0xB", VDict [])] (Some "0xA")
     = Ok (nodes_page 2 []).
Proof.
  assert (Hfalsy : forall kv, In kv [("0xA", VNone); ("0xB", VDict [])] ->
                              truthy (snd kv) = false).
  { intros kv [<-|[<-|[]]]; reflexivity. }
  split; [apply two_keys_distinct|]. split; [exact Hfalsy|].
  apply (known_nodes_nothing_truthy [("0xA", VNone); ("0xB", VDict [])] (Some "0xA")
           (two_keys_distinct _ _) Hfalsy).
Defined.

Lemma known_nodes_returns_iff_witness :
  well_formed [("0xA", node_A); ("0xB", VInt 5)]
  /\ ((exists page, components.known_nodes [("0xA", node_A); ("0xB", VInt 5)] None = Ok page)
      <-> forall kv, In kv [("0xA", node_A); ("0xB", VInt 5)] -> truthy (snd kv) = true ->
                     exists c, components.generate_node_table_components (snd kv) = Ok c).
Proof.
  split; [apply two_keys_distinct|].
  apply (known_nodes_returns_iff [("0xA", node_A); ("0xB", VInt 5)] None).
  apply two_keys_distinct.
Defined.

Lemma known_nodes_highlights_teacher_once_witness :
  well_formed [("0xA", node_A); ("0xB", VDict []); ("0xC", node_C)]
  /\ exists rows,
      components.known_nodes [("0xA", node_A); ("0xB", VDict []); ("0xC", node_C)]
                             (Some "0xC")
      = Ok (nodes_page 3 rows)
      /\ List.length (filter highlighted rows) = 1.
Proof.
  split; [apply example_keys_distinct|].
  apply (known_nodes_highlights_teacher_once
           [("0xA", node_A); ("0xB", VDict []); ("0xC", node_C)] (Some "0xC")
           (example_keys_distinct _ _ _) example_dict_renders).
Defined.

Lemma refresh_then_read_witness :
  next_fetch example_dashboard cold_world = Ok (snapshot 1)
  /\ dashboard.json_loads (dashboard.json_dumps (snapshot 1)) = Ok (snapshot 1)
  /\ dashboard.fire_minute_interval example_dashboard 1
       (dashboard.fire_request_interval example_dashboard 1 cold_world)
     = ((states_widget (snapshot 1), period_widget (snapshot 1)),
        dashboard.fire_request_interval example_dashboard 1 cold_world).
Proof.
  split; [reflexivity|]. split; [reflexivity|].
  apply (refresh_then_read example_dashboard 1 1 cold_world (snapshot 1)); reflexivity.
Defined.

Lemma cold_fetch_failure_reaches_consumer_witness :
  next_fetch example_dashboard cold_crawler_down_world
  = Raise (RequestException "connection refused")
  /\ fst (dashboard.state example_dashboard 1 None cold_crawler_down_world)
     = Raise (RequestException "connection refused").
Proof.
  split; [reflexivity|].
  apply (cold_fetch_failure_reaches_consumer example_dashboard 1 cold_crawler_down_world
           (RequestException "connection refused")).
  reflexivity.
Defined.

Lemma undecodable_snapshot_raises_witness :
  @dashboard.json_loads partial_json None = Raise JSONDecodeError
  /\ @dashboard.state partial_json example_requests example_crawler_constants
       example_nucypher example_dashboard 1 (Some None) garbled_page_world
     = (Raise JSONDecodeError, garbled_page_world).
Proof.
  split; [reflexivity|].
  apply (@undecodable_snapshot_raises example_builtins partial_json example_requests
           example_crawler_constants example_nucypher
           example_dashboard 1 garbled_page_world None JSONDecodeError).
  reflexivity.
Defined.

Lemma active_stakers_shows_ratio_witness :
  fst (dashboard.verify_cached_stats example_dashboard (Some activity_text)
         activity_world)
  = Ok activity_snapshot
  /\ fst (dashboard.active_stakers example_dashboard 1 (Some activity_text)
            activity_world)
     = Ok (ratio_widget "12/20").
Proof.
  split; [reflexivity|].
  apply (active_stakers_shows_ratio example_dashboard 1 (Some activity_text)
           activity_world activity_snapshot
           (VDict [("active", VInt 12); ("pending", VInt 3); ("inactive", VInt 5)])
           12 3 5);
    reflexivity.
Defined.

Lemma staker_information_answer_witness :
  fst (dashboard.staker_information example_dashboard "0xA" cold_world)
  = Ok (dashboard.jsonify (VDict (example_staker_body "0xA")))
  /\ keys (example_staker_body "0xA") = STAKER_FIELDS.
Proof.
  split; [reflexivity|].
  apply (staker_information_answer example_dashboard "0xA" cold_world
           (example_staker_body "0xA")).
  reflexivity.
Defined.

Lemma supply_information_answer_witness :
  fst (dashboard.supply_information (dashboard.economics example_dashboard) cold_world)
  = Ok (dashboard.jsonify (VDict example_supply_body))
  /\ keys example_supply_body = SUPPLY_FIELDS.
Proof.
  split; [vm_compute; reflexivity|].
  apply (supply_information_answer (dashboard.economics example_dashboard) cold_world
           example_supply_body).
  vm_compute. reflexivity.
Defined.
